(** * tamr_unify_client: mastering projects and attribute-configuration
      collections

    A shallow embedding of

      - [tamr_unify_client/mastering/project.py]  (class [MasteringProject])
      - [tamr_unify_client/models/attribute_configuration/collection.py]
        (class [AttributeConfigurationCollection])

    Every method is a thin translation from a call to requests on the shared
    client and back to a wrapper object.  The embedding therefore threads the
    log of client operations through a small state-and-exception monad: what
    a method does to the outside world is exactly what it appends to the log.
    The remote platform is a parameter (a [Client] record whose answers may
    depend on everything that was requested before), and so are the JSON
    primitives of the Python standard library. *)

From Stdlib Require Import String Ascii List ZArith Bool Lia.
Import ListNotations.
Local Open Scope string_scope.

Set Implicit Arguments.
Set Warnings "-register-all".

(* ===================================================================== *)
(** ** JSON values and exceptions                                         *)
(* ===================================================================== *)

(** Decoded JSON, as Python's [json] module produces it: [dict] as an
    association list in document order, [list] as a list. *)
Inductive json : Type :=
| JNull
| JBool (b : bool)
| JNum (n : Z)
| JStr (s : string)
| JArr (items : list json)
| JObj (members : list (string * json)).

Fixpoint assoc (k : string) (kv : list (string * json)) : option json :=
  match kv with
  | [] => None
  | (k', v) :: rest => if String.eqb k k' then Some v else assoc k rest
  end.

(** What can be raised.  [NotImplementedError] is the exception the source
    raises by name; [NotFound] to [TransportError] are the categories of
    the error taxonomy, for failures that originate in the shared client
    and the base classes; [TypeError], [JSONDecodeError] and
    [StopIteration] are Python's own; [UserError] stands for an exception
    of the caller, thrown into a generator. *)
Inductive exn : Type :=
| NotImplementedError (msg : string)
| NotFound
| AmbiguousResult
| AuthError
| RequestFailed (status : Z)
| MalformedResponse
| TransportError
| TypeError
| JSONDecodeError
| StopIteration
| UserError (tag : string).

(** The taxonomy's name for each failure.  The docstring of
    [by_external_id] states that the method "is not supported and will raise
    a NotImplementedError": that exception is the [NotSupported] outcome. *)
Inductive category : Type :=
| CatNotFound | CatAmbiguousResult | CatNotSupported | CatAuthError
| CatRequestFailed | CatMalformedResponse | CatTransportError | CatOther.

Definition categorize (e : exn) : category :=
  match e with
  | NotImplementedError _ => CatNotSupported
  | NotFound => CatNotFound
  | AmbiguousResult => CatAmbiguousResult
  | AuthError => CatAuthError
  | RequestFailed _ => CatRequestFailed
  | MalformedResponse => CatMalformedResponse
  | TransportError => CatTransportError
  | JSONDecodeError => CatMalformedResponse
  | TypeError | StopIteration | UserError _ => CatOther
  end.

Inductive result (A : Type) : Type :=
| Ok (a : A)
| Raise (e : exn).
Arguments Ok {A} a.
Arguments Raise {A} e.

(* ===================================================================== *)
(** ** Resources                                                          *)
(* ===================================================================== *)

(** The wrapper classes the two modules instantiate. *)
Inductive resource_class : Type :=
| Dataset
| MachineLearningModel
| BinningModel
| PublishedClustersConfiguration
| EstimatedPairCounts
| AttributeConfiguration
| Project.

(** An instance: [cls(client, data, alias)].  [_data] is [None] for an
    instance built from a path alone.  The client is shared by every
    instance and is not stored per instance. *)
Record Resource : Type := mkResource {
  cls : resource_class;
  _data : option json;
  api_path : string
}.

(** The body key [k] of an instance whose body is present. *)
Definition body_field (k : string) (r : Resource) : option json :=
  match _data r with
  | Some (JObj kv) => assoc k kv
  | _ => None
  end.

(** Modelled from the spec: the constructor of the resource base class,
    which is not among the source files.  An instance is "created either
    from a known path (unresolved) or from a path + already-fetched body
    (resolved)", with no request.  When no path is passed (as [create]
    does) the path is the body's own [relativeId]; a body without one
    cannot be addressed. *)
Definition construct (c : resource_class) (data : option json)
    (alias : option string) : result Resource :=
  match alias with
  | Some p => Ok (mkResource c data p)
  | None =>
      match data with
      | Some (JObj kv) =>
          match assoc "relativeId" kv with
          | Some (JStr rid) => Ok (mkResource c data rid)
          | _ => Raise MalformedResponse
          end
      | _ => Raise MalformedResponse
      end
  end.

(** Modelled from the spec: the typed accessor [relative_id] of the base
    class ("typed field accessors computed ... from the underlying
    mapping"; the wire object carries [relativeId]). *)
Definition relative_id (r : Resource) : option json :=
  body_field "relativeId" r.

(** The two classes of cluster-version objects; each is built from one
    decoded JSON value. *)
Inductive cluster : Type :=
| PublishedCluster (data : json)
| RecordPublishedCluster (data : json).

(* ===================================================================== *)
(** ** The shared client                                                  *)
(* ===================================================================== *)

Inductive method : Type := GET | POST.

(** The keyword arguments of [client.post]: [data=] sends a string as it
    is, [json=] sends a value to be encoded. *)
Inductive payload : Type :=
| NoPayload
| DataPayload (data : string)
| JsonPayload (spec : json).

Record request : Type := mkRequest {
  req_method : method;
  req_path : string;
  req_payload : payload;
  req_stream : bool
}.

(** A response: its status, the body text for [.json()], and, for a
    streamed response, what [iter_lines()] delivers: the lines in order,
    then either the end of the stream or a failure of the connection. *)
Record response : Type := mkResponse {
  status_code : Z;
  text : string;
  lines : list string;
  broken : option exn
}.

(** Everything a method can do to the outside world. *)
Inductive event : Type :=
| Sent (r : request)                 (* client.get / client.post *)
| Released (path : string)           (* the response's context exit *)
| FetchedUnifiedDataset (project_path : string)  (* self.unified_dataset() *)
| LookedUpByName (name : string).    (* client.datasets.by_name(name) *)

Definition log := list event.

(** The separator of newline-delimited JSON. *)
Definition newline : string := String (ascii_of_nat 10) EmptyString.

(** The remote platform, seen through the client.  Each answer may depend
    on the whole history. *)
Record Client : Type := mkClient {
  (** the transport: a response, or a failure of the exchange *)
  transport : log -> request -> result response;
  (** the project's unified dataset, as the platform serves it *)
  unified_dataset_of : log -> string -> result Resource;
  (** the members of the dataset collection, in server order *)
  datasets : log -> list Resource
}.

(* ===================================================================== *)
(** ** The monad of client operations                                     *)
(* ===================================================================== *)

(** A computation reads and extends the log and returns or raises.  The
    log survives an exception: a request that was sent stays sent. *)
Definition M (A : Type) : Type := log -> result A * log.

Definition ret {A} (a : A) : M A := fun t => (Ok a, t).

Definition raise {A} (e : exn) : M A := fun t => (Raise e, t).

Definition bind {A B} (m : M A) (k : A -> M B) : M B :=
  fun t =>
    match m t with
    | (Ok a, t') => k a t'
    | (Raise e, t') => (Raise e, t')
    end.

Definition lift {A} (r : result A) : M A := fun t => (r, t).

Declare Scope client_scope.
Delimit Scope client_scope with client.
Notation "x <- m ;; k" := (bind m (fun x => k))
  (at level 61, m at next level, right associativity) : client_scope.
Notation "m ;; k" := (bind m (fun _ => k))
  (at level 61, right associativity) : client_scope.
Local Open Scope client_scope.

(* ===================================================================== *)
(** ** Operations of the client and of the base classes                   *)
(* ===================================================================== *)

Section ClientOperations.

Variable client : Client.

(** [client.post(path, data=..., json=..., stream=...)] *)
Definition client_post (path : string) (p : payload) (stream : bool)
    : M response :=
  fun t =>
    let r := mkRequest POST path p stream in
    (transport client t r, (t ++ [Sent r])%list).

(** Modelled from the spec: [response.successful()], which the client
    module (not among the source files) attaches to a response:
    "non-2xx responses surface as a categorized failure ([NotFound] for
    404, [AuthError] for 401/403, generic [RequestFailed] otherwise)". *)
Definition successful (r : response) : M response :=
  let s := status_code r in
  if (200 <=? s)%Z && (s <? 300)%Z then ret r
  else if (s =? 404)%Z then raise NotFound
  else if (s =? 401)%Z || (s =? 403)%Z then raise AuthError
  else raise (RequestFailed s).

(** Modelled from the spec: [Project.unified_dataset()], defined in the
    parent class (not among the source files): it fetches the project's
    unified dataset from the platform. *)
Definition unified_dataset (self : Resource) : M Resource :=
  fun t =>
    (unified_dataset_of client t (api_path self),
     (t ++ [FetchedUnifiedDataset (api_path self)])%list).

(** Modelled from the spec: the [name] accessor of a dataset (the
    dataset class is not among the source files), read from the body of
    a fetched instance. *)
Definition name (d : Resource) : M json :=
  match body_field "name" d with
  | Some v => ret v
  | None => raise MalformedResponse
  end.

(** Python's [left + "literal"]: defined when [left] is a [str]. *)
Definition str_add (left : json) (right : string) : M string :=
  match left with
  | JStr s => ret (s ++ right)
  | _ => raise TypeError
  end.

Definition has_name (nm : string) (d : Resource) : bool :=
  match body_field "name" d with
  | Some (JStr s) => String.eqb s nm
  | _ => false
  end.

(** The member of the dataset collection that carries exactly the name
    [nm], when the collection is consulted after history [t]. *)
Definition dataset_named (t : log) (nm : string) : option Resource :=
  find (has_name nm) (datasets client t).

(** Modelled from the spec: [client.datasets.by_name(name)] of the
    dataset collection (not among the source files): "an exact-name
    lookup against the sibling collection" that "fails with [NotFound]
    if no resource with the derived name exists". *)
Definition by_name (nm : string) : M Resource :=
  fun t =>
    (match dataset_named t nm with
     | Some d => Ok d
     | None => Raise NotFound
     end,
     (t ++ [LookedUpByName nm])%list).

(** [cls(client, data, alias)] and [cls.from_json(client, data, alias)] *)
Definition new (c : resource_class) (data : option json)
    (alias : option string) : M Resource :=
  lift (construct c data alias).

Definition from_json (c : resource_class) (data : option json)
    (alias : option string) : M Resource :=
  lift (construct c data alias).

End ClientOperations.

(* ===================================================================== *)
(** ** mastering/project.py                                               *)
(* ===================================================================== *)

Module MasteringProject.

(** A generator object made by [_cluster_versions], by the point where
    its frame is parked: not started (the arguments are bound, no line of
    the body has run), suspended at the [yield] inside the [for] loop and
    the [with] block (holding the response and the lines not yet
    delivered), or finished (returned, raised or closed). *)
Inductive generator : Type :=
| Created (cluster_class : json -> cluster) (ids : list string)
          (endpoint : string)
| Suspended (cluster_class : json -> cluster) (endpoint : string)
            (resp : response) (rest : list string)
| Finished.

(** What the caller can do with a generator object: [next(g)],
    [g.close()] (also what the runtime does to a generator that is
    dropped), [g.throw(e)]. *)
Inductive call : Type :=
| Next
| Close
| Throw (e : exn).

(** What a run of [next] calls has delivered: the objects yielded, in
    order, and the exception that ended the run ([None] while the
    generator is still suspended). *)
Record drained : Type := mkDrained {
  yielded : list cluster;
  ended : option exn
}.

Section Methods.

Variable client : Client.

(** The JSON primitives of the standard library: [json.dumps] on an
    identifier and [json.loads] on a line ([None] when it raises). *)
Variable json_dumps : string -> string.
Variable json_loads : string -> option json.

Definition pairs (self : Resource) : M Resource :=
  let alias := api_path self ++ "/recordPairs" in
  new Dataset None (Some alias).

Definition pair_matching_model (self : Resource) : M Resource :=
  let alias := api_path self ++ "/recordPairsWithPredictions/model" in
  new MachineLearningModel None (Some alias).

Definition high_impact_pairs (self : Resource) : M Resource :=
  let alias := api_path self ++ "/highImpactPairs" in
  new Dataset None (Some alias).

Definition record_clusters (self : Resource) : M Resource :=
  let alias := api_path self ++ "/recordClusters" in
  new Dataset None (Some alias).

Definition published_clusters (self : Resource) : M Resource :=
  unified_dataset <- unified_dataset client self ;;
  n <- name unified_dataset ;;
  name <- str_add n "_dedup_published_clusters" ;;
  canonical <- by_name client name ;;
  let resource_json := _data canonical in
  let alias := api_path self ++ "/publishedClusters" in
  from_json Dataset resource_json (Some alias).

Definition published_cluster_ids (self : Resource) : M Resource :=
  unified_dataset <- unified_dataset client self ;;
  n <- name unified_dataset ;;
  name <- str_add n "_dedup_all_persistent_ids" ;;
  dataset <- by_name client name ;;
  let path := api_path self ++ "/allPublishedClusterIds" in
  from_json Dataset (_data dataset) (Some path).

Definition published_cluster_stats (self : Resource) : M Resource :=
  unified_dataset <- unified_dataset client self ;;
  n <- name unified_dataset ;;
  name <- str_add n "_dedup_published_cluster_stats" ;;
  dataset <- by_name client name ;;
  let path := api_path self ++ "/publishedClusterStats" in
  from_json Dataset (_data dataset) (Some path).

Definition record_clusters_with_data (self : Resource) : M Resource :=
  unified_dataset <- unified_dataset client self ;;
  n <- name unified_dataset ;;
  name <- str_add n "_dedup_clusters_with_data" ;;
  by_name client name.

Definition published_clusters_with_data (self : Resource) : M Resource :=
  unified_dataset <- unified_dataset client self ;;
  n <- name unified_dataset ;;
  name <- str_add n "_dedup_published_clusters_with_data" ;;
  by_name client name.

Definition binning_model (self : Resource) : M Resource :=
  let alias := api_path self ++ "/binningModel" in
  let resource_json := JObj [("relativeId", JStr alias)] in
  from_json BinningModel (Some resource_json) (Some alias).

(** Calling the generator function binds the arguments and returns the
    generator object; the body starts at the first [next]. *)
Definition _cluster_versions (self : Resource)
    (cluster_class : json -> cluster) (ids : list string)
    (endpoint : string) : M generator :=
  ret (Created cluster_class ids endpoint).

Definition published_cluster_versions (self : Resource)
    (cluster_ids : list string) : M generator :=
  let path := api_path self ++ "/publishedClusterVersions" in
  _cluster_versions self PublishedCluster cluster_ids path.

Definition record_published_cluster_versions (self : Resource)
    (record_ids : list string) : M generator :=
  let path := api_path self ++ "/recordPublishedClusterVersions" in
  _cluster_versions self RecordPublishedCluster record_ids path.

(** Leaving the [with] block, by any way out, exits the response's
    context. *)
Definition release (endpoint : string) (t : log) : log :=
  (t ++ [Released endpoint])%list.

(** The [for line in response.iter_lines()] loop at the point where the
    next line is requested, inside the [with] block. *)
Definition loop (cluster_class : json -> cluster) (endpoint : string)
    (resp : response) (rest : list string) (t : log)
    : (result cluster * generator) * log :=
  match rest with
  | line :: rest' =>
      match json_loads line with
      | Some v =>
          ((Ok (cluster_class v),
            Suspended cluster_class endpoint resp rest'), t)
      | None => ((Raise JSONDecodeError, Finished), release endpoint t)
      end
  | [] =>
      match broken resp with
      | Some e => ((Raise e, Finished), release endpoint t)
      | None => ((Raise StopIteration, Finished), release endpoint t)
      end
  end.

(** [next(g)]: run the body of [_cluster_versions] up to the next
    [yield], the end of the body or an exception. *)
Definition next (g : generator) (t : log)
    : (result cluster * generator) * log :=
  match g with
  | Created cluster_class ids endpoint =>
      let string_ids := String.concat newline (map json_dumps ids) in
      match client_post client endpoint (DataPayload string_ids) true t with
      | (Ok resp, t') => loop cluster_class endpoint resp (lines resp) t'
      | (Raise e, t') => ((Raise e, Finished), t')
      end
  | Suspended cluster_class endpoint resp rest =>
      loop cluster_class endpoint resp rest t
  | Finished => ((Raise StopIteration, Finished), t)
  end.

(** [g.close()]: raised at the [yield] of a suspended frame, the exit
    unwinds the [with] block; a frame that has not started or has
    finished runs nothing. *)
Definition close (g : generator) (t : log) : generator * log :=
  match g with
  | Suspended _ endpoint _ _ => (Finished, release endpoint t)
  | _ => (Finished, t)
  end.

(** [g.throw(e)]: [e] is raised at the [yield]; the body does not catch
    it. *)
Definition throw (e : exn) (g : generator) (t : log)
    : (result cluster * generator) * log :=
  match g with
  | Suspended _ endpoint _ _ => ((Raise e, Finished), release endpoint t)
  | _ => ((Raise e, Finished), t)
  end.

Definition step (c : call) (g : generator) (t : log) : generator * log :=
  match c with
  | Next => let '((_, g'), t') := next g t in (g', t')
  | Close => close g t
  | Throw e => let '((_, g'), t') := throw e g t in (g', t')
  end.

(** A caller's session with a generator object. *)
Fixpoint run (cs : list call) (g : generator) (t : log)
    : generator * log :=
  match cs with
  | [] => (g, t)
  | c :: cs' => let '(g', t') := step c g t in run cs' g' t'
  end.

(** Iterating to the end, as [for c in g] and [list(g)] do: at most
    [fuel] calls of [next]. *)
Fixpoint drain (fuel : nat) (g : generator) (t : log)
    : (drained * generator) * log :=
  match fuel with
  | O => ((mkDrained [] None, g), t)
  | S fuel' =>
      match next g t with
      | ((Ok c, g'), t') =>
          let '((d, g''), t'') := drain fuel' g' t' in
          ((mkDrained (c :: yielded d) (ended d), g''), t'')
      | ((Raise e, g'), t') => ((mkDrained [] (Some e), g'), t')
      end
  end.

(** A whole life of a generator object: the caller's calls, then the
    disposal of the object. *)
Definition session (cs : list call) (g : generator) (t : log) : log :=
  let '(g', t') := run cs g t in snd (close g' t').

End Methods.
End MasteringProject.

(* ===================================================================== *)
(** ** models/attribute_configuration/collection.py                       *)
(* ===================================================================== *)

Module AttributeConfigurationCollection.

(** [AttributeConfigurationCollection(client, data, api_path)] *)
Record Collection : Type := mkCollection {
  collection_data : option json;
  collection_path : string
}.

Section Methods.

Variable client : Client.
Variable json_loads : string -> option json.

(** [response.json()]: the body text decoded by the JSON library. *)
Definition response_json (r : response) : M json :=
  match json_loads (text r) with
  | Some v => ret v
  | None => raise JSONDecodeError
  end.

(** [external_id] may be any Python value; the body does not mention
    it. *)
Definition by_external_id (self : Collection) (A : Type)
    (external_id : A) : M Resource :=
  raise (NotImplementedError
           "AttributeConfiguration des not support external_id").

Definition create (self : Collection) (creation_spec : json)
    : M Resource :=
  r <- client_post client (collection_path self)
         (JsonPayload creation_spec) false ;;
  r <- successful r ;;
  data <- response_json r ;;
  from_json AttributeConfiguration (Some data) None.

End Methods.
End AttributeConfigurationCollection.

(* ===================================================================== *)
(** ** mastering/project.py: the methods that read one document          *)
(* ===================================================================== *)

Section Documents.

Variable client : Client.
Variable json_loads : string -> option json.

(** [client.get(path)] *)
Definition client_get (path : string) : M response :=
  fun t =>
    let r := mkRequest GET path NoPayload false in
    (transport client t r, (t ++ [Sent r])%list).

(** [MasteringProject.published_clusters_configuration] *)
Definition published_clusters_configuration (self : Resource) : M Resource :=
  let alias := api_path self ++ "/publishedClustersConfiguration" in
  r <- client_get alias ;;
  r <- successful r ;;
  resource_json <- AttributeConfigurationCollection.response_json json_loads r ;;
  from_json PublishedClustersConfiguration (Some resource_json) (Some alias).

(** [MasteringProject.estimate_pairs] *)
Definition estimate_pairs (self : Resource) : M Resource :=
  let alias := api_path self ++ "/estimatedPairCounts" in
  r <- client_get alias ;;
  r <- successful r ;;
  estimate_json <- AttributeConfigurationCollection.response_json json_loads r ;;
  info <- from_json EstimatedPairCounts (Some estimate_json) (Some alias) ;;
  ret info.

End Documents.

(* ===================================================================== *)
(** ** What the properties speak about                                   *)
(* ===================================================================== *)

Import MasteringProject.

(** The requests in a log, in the order they were sent, and the number of
    times a response was released. *)
Fixpoint requests (t : log) : list request :=
  match t with
  | [] => []
  | Sent r :: t' => r :: requests t'
  | _ :: t' => requests t'
  end.

Fixpoint releases (t : log) : nat :=
  match t with
  | [] => 0
  | Released _ :: t' => S (releases t')
  | _ :: t' => releases t'
  end.

(** The one request of [_cluster_versions]: a streamed POST to the
    endpoint whose body is the encoded identifiers, one per line. *)
Definition versions_request (json_dumps : string -> string)
    (endpoint : string) (ids : list string) : request :=
  mkRequest POST endpoint
    (DataPayload (String.concat newline (map json_dumps ids))) true.

(** Whether the generator holds a response open. *)
Definition holding (g : generator) : nat :=
  match g with
  | Suspended _ _ _ _ => 1
  | _ => 0
  end.

Definition started (g : generator) : Prop :=
  match g with
  | Created _ _ _ => False
  | _ => True
  end.

(** The chain [client.get(...).successful().json()] or
    [client.post(...).successful().json()] that three methods open with,
    followed by the rest [k] of the method. *)
Definition exchange (client : Client) (json_loads : string -> option json)
    (A : Type) (r : request) (k : json -> M A) : M A :=
  bind (fun t => (transport client t r, (t ++ [Sent r])%list))
    (fun resp =>
       bind (successful resp)
         (fun resp' =>
            bind (AttributeConfigurationCollection.response_json
                    json_loads resp') k)).

(** The five methods that resolve a dataset through the name of the unified
    dataset, with the token each appends to that name. *)
Inductive derived : Type :=
| PublishedClusters
| PublishedClusterIds
| PublishedClusterStats
| RecordClustersWithData
| PublishedClustersWithData.

Definition method_of (client : Client) (op : derived)
    : Resource -> M Resource :=
  match op with
  | PublishedClusters => published_clusters client
  | PublishedClusterIds => published_cluster_ids client
  | PublishedClusterStats => published_cluster_stats client
  | RecordClustersWithData => record_clusters_with_data client
  | PublishedClustersWithData => published_clusters_with_data client
  end.

Definition suffix_of (op : derived) : string :=
  match op with
  | PublishedClusters => "_dedup_published_clusters"
  | PublishedClusterIds => "_dedup_all_persistent_ids"
  | PublishedClusterStats => "_dedup_published_cluster_stats"
  | RecordClustersWithData => "_dedup_clusters_with_data"
  | PublishedClustersWithData => "_dedup_published_clusters_with_data"
  end.

(** The three of them that wrap the body they find under a path of the
    project; the other two return what they find. *)
Definition alias_of (op : derived) : option string :=
  match op with
  | PublishedClusters => Some "/publishedClusters"
  | PublishedClusterIds => Some "/allPublishedClusterIds"
  | PublishedClusterStats => Some "/publishedClusterStats"
  | RecordClustersWithData | PublishedClustersWithData => None
  end.

(** The operations on the client that a derived-name method performs:
    the fetch of the unified dataset, then one lookup by name. *)
Definition lookup_log (self : Resource) (t : log) (nm : string) : log :=
  (t ++ [FetchedUnifiedDataset (api_path self); LookedUpByName nm])%list.

(* ===================================================================== *)
(** ** A platform to run the methods against                              *)
(* ===================================================================== *)

(** The fixture of the unit tests: project [projects/1], whose unified
    dataset is named ["project 1 unified dataset"], the datasets the
    mastering pipeline derives from it, and canned answers for the POST
    endpoints. *)
Module Fixture.

Definition project : Resource :=
  mkResource Project
    (Some (JObj [("name", JStr "project 1 name");
                 ("unifiedDatasetName", JStr "project 1 unified dataset");
                 ("relativeId", JStr "projects/1")]))
    "projects/1".

Definition dataset (id nm : string) : Resource :=
  mkResource Dataset
    (Some (JObj [("name", JStr nm); ("relativeId", JStr ("datasets/" ++ id))]))
    ("datasets/" ++ id).

Definition unified : Resource := dataset "8" "project 1 unified dataset".

Definition all_datasets : list Resource :=
  [ unified;
    dataset "9" "project 1 unified dataset_dedup_published_clusters";
    dataset "10" "project 1 unified dataset_dedup_clusters_with_data";
    dataset "11" "project 1 unified dataset_dedup_published_clusters_with_data" ].

Definition created : json :=
  JObj [("id", JStr "unify://unified-data/v1/projects/1/attributeConfigurations/35");
        ("relativeId", JStr "projects/1/attributeConfigurations/35");
        ("relativeAttributeId", JStr "datasets/79/attributes/Tester");
        ("attributeRole", JStr EmptyString);
        ("similarityFunction", JStr "ABSOLUTE_DIFF");
        ("enabledForMl", JBool false);
        ("tokenizer", JStr EmptyString);
        ("numericFieldResolution", JArr []);
        ("attributeName", JStr "Tester")].

Definition version (id : string) : json :=
  JObj [("id", JStr id); ("versions", JArr [])].

(** A stand-in for the JSON codec: identifiers are quoted, and the
    canned body texts decode to the canned values. *)
Definition quote : string := String (ascii_of_nat 34) EmptyString.

Definition dumps (s : string) : string := quote ++ s ++ quote.

Definition loads (s : string) : option json :=
  if String.eqb s "created-35" then Some created
  else if String.eqb s "version-of-id1" then Some (version "id1")
  else if String.eqb s "version-of-id2" then Some (version "id2")
  else None.

Definition answer (t : log) (r : request) : result response :=
  match req_method r with
  | POST =>
      if String.eqb (req_path r) "projects/1/attributeConfigurations"
      then Ok (mkResponse 204 "created-35" [] None)
      else if String.eqb (req_path r) "projects/1/publishedClusterVersions"
      then Ok (mkResponse 200 EmptyString ["version-of-id1"; "version-of-id2"] None)
      else Ok (mkResponse 404 EmptyString [] None)
  | GET => Ok (mkResponse 404 EmptyString [] None)
  end.

Definition client : Client :=
  mkClient answer
           (fun _ path =>
              if String.eqb path "projects/1" then Ok unified
              else Raise NotFound)
           (fun _ => all_datasets).

(** The same platform before the mastering pipeline has produced any
    derived dataset. *)
Definition early_client : Client :=
  mkClient answer
           (fun _ path =>
              if String.eqb path "projects/1" then Ok unified
              else Raise NotFound)
           (fun _ => [unified]).

Definition collection : AttributeConfigurationCollection.Collection :=
  AttributeConfigurationCollection.mkCollection
    None "projects/1/attributeConfigurations".

End Fixture.

(** A second platform, for the ways an exchange can go: streams with a
    line that does not decode, with a connection that breaks, with an
    error status, an endpoint that cannot be reached, documents to read,
    a unified dataset without a usable name. *)
Module Mishaps.

Definition configuration : json :=
  JObj [("versionsTimeToLive", JStr "P4D")].

Definition estimate : json :=
  JObj [("isUpToDate", JBool true); ("totalEstimate", JNum 42)].

Definition loads (s : string) : option json :=
  if String.eqb s "configuration" then Some configuration
  else if String.eqb s "estimate" then Some estimate
  else Fixture.loads s.

Definition two_lines : list string := ["version-of-id1"; "version-of-id2"].

Definition answer (t : log) (r : request) : result response :=
  match req_method r with
  | POST =>
      if String.eqb (req_path r) "projects/1/publishedClusterVersions"
      then Ok (mkResponse 200 EmptyString
                 ["version-of-id1"; "not json"; "version-of-id2"] None)
      else if String.eqb (req_path r) "projects/1/recordPublishedClusterVersions"
      then Ok (mkResponse 200 EmptyString two_lines None)
      else if String.eqb (req_path r) "projects/2/publishedClusterVersions"
      then Ok (mkResponse 200 EmptyString two_lines (Some TransportError))
      else if String.eqb (req_path r) "projects/3/publishedClusterVersions"
      then Ok (mkResponse 404 "no such project" two_lines None)
      else Raise TransportError
  | GET =>
      if String.eqb (req_path r) "projects/1/publishedClustersConfiguration"
      then Ok (mkResponse 200 "configuration" [] None)
      else if String.eqb (req_path r) "projects/1/estimatedPairCounts"
      then Ok (mkResponse 200 "estimate" [] None)
      else Ok (mkResponse 404 EmptyString [] None)
  end.

Definition nameless : Resource :=
  mkResource Dataset
    (Some (JObj [("name", JNull); ("relativeId", JStr "datasets/12")]))
    "datasets/12".

Definition all_datasets : list Resource :=
  [ Fixture.unified;
    Fixture.dataset "13" "project 1 unified dataset_dedup_all_persistent_ids";
    Fixture.dataset "14"
      "project 1 unified dataset_dedup_published_cluster_stats" ].

Definition client : Client :=
  mkClient answer
           (fun _ path =>
              if String.eqb path "projects/1" then Ok Fixture.unified
              else if String.eqb path "projects/2" then Ok nameless
              else Raise AuthError)
           (fun _ => all_datasets).

Definition project (id : string) : Resource :=
  mkResource Project None ("projects/" ++ id).

End Mishaps.

(* ===================================================================== *)
(** ** Properties                                                         *)
(* ===================================================================== *)

(** *** Methods that only build a wrapper *)

(** C2. [AttributeConfigurationCollection.by_external_id] raises for every
    argument, of whatever type: the outcome is the [NotSupported] one, it
    is the same for any two collections and arguments (the argument is not
    inspected), and the log of client operations is left as it was (no
    request, no scan of the collection). *)
Theorem by_external_id_not_supported :
  forall (self : AttributeConfigurationCollection.Collection)
         (A : Type) (external_id : A) (t : log),
    (exists msg,
        AttributeConfigurationCollection.by_external_id self external_id t
        = (Raise (NotImplementedError msg), t)
        /\ categorize (NotImplementedError msg) = CatNotSupported)
    /\ (forall (self' : AttributeConfigurationCollection.Collection)
               (B : Type) (other : B),
           AttributeConfigurationCollection.by_external_id self' other t
           = AttributeConfigurationCollection.by_external_id self external_id t).
Proof.
  intros self A external_id t. split.
  - eexists. split; reflexivity.
  - reflexivity.
Qed.

(** C6. [pairs], [high_impact_pairs], [record_clusters] and
    [pair_matching_model] leave the log of client operations untouched and
    return a wrapper without a body whose path is the project's [api_path]
    followed by the fixed suffix, character for character. *)
Theorem unresolved_wrappers_at_fixed_suffix :
  forall (self : Resource) (t : log),
    pairs self t
    = (Ok (mkResource Dataset None (api_path self ++ "/recordPairs")), t)
    /\ high_impact_pairs self t
       = (Ok (mkResource Dataset None (api_path self ++ "/highImpactPairs")), t)
    /\ record_clusters self t
       = (Ok (mkResource Dataset None (api_path self ++ "/recordClusters")), t)
    /\ pair_matching_model self t
       = (Ok (mkResource MachineLearningModel None
                (api_path self ++ "/recordPairsWithPredictions/model")), t).
Proof.
  intros self t. repeat split.
Qed.

(** The path of the parent is not normalised: a trailing slash stays. *)
Example pairs_keeps_trailing_slash :
  pairs (mkResource Project None "projects/1/") []
  = (Ok (mkResource Dataset None "projects/1//recordPairs"), []).
Proof. reflexivity. Qed.

(** C8. [binning_model] leaves the log of client operations untouched and
    returns a [BinningModel] whose body is the literal object
    [{"relativeId": api_path + "/binningModel"}] and whose path is that
    same string; the client, hence the state of the platform, is not an
    input of the method. *)
Theorem binning_model_is_hard_coded :
  forall (self : Resource) (t : log),
    let alias := api_path self ++ "/binningModel" in
    binning_model self t
    = (Ok (mkResource BinningModel
             (Some (JObj [("relativeId", JStr alias)])) alias), t).
Proof.
  intros self t. reflexivity.
Qed.

(** *** Datasets resolved through a derived name *)

Section DerivedName.

Variable client : Client.
Variables (self : Resource) (t : log) (ud : Resource) (N : string).

(** The unified dataset of the project is served, and is named [N]. *)
Hypothesis fetch_ok : unified_dataset_of client t (api_path self) = Ok ud.
Hypothesis named : body_field "name" ud = Some (JStr N).

Let t1 : log := (t ++ [FetchedUnifiedDataset (api_path self)])%list.

Ltac enter op :=
  destruct op; cbn [method_of suffix_of alias_of] in *;
  unfold published_clusters, published_cluster_ids,
    published_cluster_stats, record_clusters_with_data,
    published_clusters_with_data, lookup_log;
  unfold bind at 1; unfold unified_dataset at 1; rewrite fetch_ok;
  unfold bind at 1; unfold name at 1; rewrite named; unfold ret at 1;
  unfold bind at 1; unfold str_add, ret at 1.

(** When the derived name is absent from the collection, the lookup
    raises and the method stops there. *)
Lemma derived_absent (op : derived) :
  dataset_named client t1 (N ++ suffix_of op) = None ->
  method_of client op self t
  = (Raise NotFound, lookup_log self t (N ++ suffix_of op)).
Proof.
  subst t1. intros Habsent. enter op;
    try (unfold bind at 1); unfold by_name; rewrite Habsent;
    rewrite <- app_assoc; reflexivity.
Qed.

(** When it is present, the method returns the member found, wrapped
    under the alias if it has one. *)
Lemma derived_present (op : derived) (d : Resource) :
  dataset_named client t1 (N ++ suffix_of op) = Some d ->
  method_of client op self t
  = (Ok match alias_of op with
        | Some suffix => mkResource Dataset (_data d) (api_path self ++ suffix)
        | None => d
        end,
     lookup_log self t (N ++ suffix_of op)).
Proof.
  subst t1. intros Hpresent. enter op;
    try (unfold bind at 1); unfold by_name; rewrite Hpresent;
    rewrite <- app_assoc; reflexivity.
Qed.

End DerivedName.

(** A member found under a name carries exactly that name. *)
Lemma dataset_named_exact (client : Client) (t : log) (nm : string)
    (d : Resource) :
  dataset_named client t nm = Some d ->
  body_field "name" d = Some (JStr nm).
Proof.
  unfold dataset_named. intros Hfind.
  apply find_some in Hfind. destruct Hfind as [_ Hname].
  unfold has_name in Hname.
  destruct (body_field "name" d) as [[| | |s| |]|]; try discriminate.
  apply String.eqb_eq in Hname. now subst.
Qed.

(** C1. When the unified dataset of the project is named [N] and the
    dataset collection has a member [canonical] named
    [N ++ "_dedup_published_clusters"], [published_clusters] first fetches
    the unified dataset, then looks up that exact name, once, and returns a
    [Dataset] that has the body of [canonical] and the path
    [api_path ++ "/publishedClusters"]. *)
Theorem published_clusters_by_derived_name :
  forall (client : Client) (self : Resource) (t : log)
         (ud : Resource) (N : string) (canonical : Resource),
    unified_dataset_of client t (api_path self) = Ok ud ->
    body_field "name" ud = Some (JStr N) ->
    dataset_named client
      (t ++ [FetchedUnifiedDataset (api_path self)])%list
      (N ++ "_dedup_published_clusters") = Some canonical ->
    published_clusters client self t
    = (Ok (mkResource Dataset (_data canonical)
             (api_path self ++ "/publishedClusters")),
       (t ++ [FetchedUnifiedDataset (api_path self);
              LookedUpByName (N ++ "_dedup_published_clusters")])%list)
    /\ body_field "name" canonical
       = Some (JStr (N ++ "_dedup_published_clusters")).
Proof.
  intros client self t ud N canonical Hfetch Hname Hfound. split.
  - exact (derived_present client self t Hfetch Hname PublishedClusters Hfound).
  - exact (dataset_named_exact _ _ _ Hfound).
Qed.

(** Scenario A of the unit tests. *)
Lemma published_clusters_by_derived_name_witness :
  published_clusters Fixture.client Fixture.project []
  = (Ok (mkResource Dataset
           (_data (Fixture.dataset "9"
                     "project 1 unified dataset_dedup_published_clusters"))
           "projects/1/publishedClusters"),
     [FetchedUnifiedDataset "projects/1";
      LookedUpByName "project 1 unified dataset_dedup_published_clusters"]).
Proof.
  exact (proj1 (@published_clusters_by_derived_name
                  Fixture.client Fixture.project [] Fixture.unified
                  "project 1 unified dataset"
                  (Fixture.dataset "9"
                     "project 1 unified dataset_dedup_published_clusters")
                  eq_refl eq_refl eq_refl)).
Defined.

(** C7. When the unified dataset is named [N] and the collection has no
    member with the derived name, [published_clusters],
    [published_cluster_ids] and [published_cluster_stats] each raise the
    [NotFound] of the lookup as it is, after one fetch of the unified
    dataset and one lookup, of the derived name: no second lookup and no
    other name. *)
Theorem derived_name_absent_is_not_found :
  forall (client : Client) (self : Resource) (t : log)
         (ud : Resource) (N : string),
    unified_dataset_of client t (api_path self) = Ok ud ->
    body_field "name" ud = Some (JStr N) ->
    let t1 := (t ++ [FetchedUnifiedDataset (api_path self)])%list in
    let tried nm :=
      (t ++ [FetchedUnifiedDataset (api_path self); LookedUpByName nm])%list in
    (dataset_named client t1 (N ++ "_dedup_published_clusters") = None ->
     published_clusters client self t
     = (Raise NotFound, tried (N ++ "_dedup_published_clusters")))
    /\ (dataset_named client t1 (N ++ "_dedup_all_persistent_ids") = None ->
        published_cluster_ids client self t
        = (Raise NotFound, tried (N ++ "_dedup_all_persistent_ids")))
    /\ (dataset_named client t1 (N ++ "_dedup_published_cluster_stats") = None ->
        published_cluster_stats client self t
        = (Raise NotFound, tried (N ++ "_dedup_published_cluster_stats")))
    /\ categorize NotFound = CatNotFound.
Proof.
  intros client self t ud N Hfetch Hname t1 tried.
  repeat split; intros Habsent.
  - exact (derived_absent client self t Hfetch Hname PublishedClusters Habsent).
  - exact (derived_absent client self t Hfetch Hname PublishedClusterIds Habsent).
  - exact (derived_absent client self t Hfetch Hname PublishedClusterStats Habsent).
Qed.

(** Before the pipeline has run, all three fail. *)
Lemma derived_name_absent_is_not_found_witness :
  published_clusters Fixture.early_client Fixture.project []
  = (Raise NotFound,
     [FetchedUnifiedDataset "projects/1";
      LookedUpByName "project 1 unified dataset_dedup_published_clusters"])
  /\ published_cluster_ids Fixture.early_client Fixture.project []
     = (Raise NotFound,
        [FetchedUnifiedDataset "projects/1";
         LookedUpByName "project 1 unified dataset_dedup_all_persistent_ids"])
  /\ published_cluster_stats Fixture.early_client Fixture.project []
     = (Raise NotFound,
        [FetchedUnifiedDataset "projects/1";
         LookedUpByName "project 1 unified dataset_dedup_published_cluster_stats"]).
Proof.
  destruct (@derived_name_absent_is_not_found
              Fixture.early_client Fixture.project [] Fixture.unified
              "project 1 unified dataset" eq_refl eq_refl)
    as (Hclusters & Hids & Hstats & _).
  exact (conj (Hclusters eq_refl) (conj (Hids eq_refl) (Hstats eq_refl))).
Defined.

(** C10. When the unified dataset is named [N],
    [record_clusters_with_data] and [published_clusters_with_data] return
    the very member of the collection found under
    [N ++ "_dedup_clusters_with_data"], respectively
    [N ++ "_dedup_published_clusters_with_data"]: its class, body and own
    path are kept.  [published_clusters] instead keeps the body only and
    puts it under [api_path ++ "/publishedClusters"]. *)
Theorem with_data_returns_canonical_dataset :
  forall (client : Client) (self : Resource) (t : log)
         (ud : Resource) (N : string) (d : Resource),
    unified_dataset_of client t (api_path self) = Ok ud ->
    body_field "name" ud = Some (JStr N) ->
    let t1 := (t ++ [FetchedUnifiedDataset (api_path self)])%list in
    let tried nm :=
      (t ++ [FetchedUnifiedDataset (api_path self); LookedUpByName nm])%list in
    (dataset_named client t1 (N ++ "_dedup_clusters_with_data") = Some d ->
     record_clusters_with_data client self t
     = (Ok d, tried (N ++ "_dedup_clusters_with_data")))
    /\ (dataset_named client t1 (N ++ "_dedup_published_clusters_with_data")
        = Some d ->
        published_clusters_with_data client self t
        = (Ok d, tried (N ++ "_dedup_published_clusters_with_data")))
    /\ (dataset_named client t1 (N ++ "_dedup_published_clusters") = Some d ->
        published_clusters client self t
        = (Ok (mkResource Dataset (_data d)
                 (api_path self ++ "/publishedClusters")),
           tried (N ++ "_dedup_published_clusters"))).
Proof.
  intros client self t ud N d Hfetch Hname t1 tried.
  repeat split; intros Hfound.
  - exact (derived_present client self t Hfetch Hname RecordClustersWithData
             Hfound).
  - exact (derived_present client self t Hfetch Hname PublishedClustersWithData
             Hfound).
  - exact (derived_present client self t Hfetch Hname PublishedClusters
             Hfound).
Qed.

(** On the fixture the two datasets come back at [datasets/10] and
    [datasets/11], their own paths, while [published_clusters] answers at
    a path under [projects/1]. *)
Lemma with_data_returns_canonical_dataset_witness :
  record_clusters_with_data Fixture.client Fixture.project []
  = (Ok (mkResource Dataset
           (Some (JObj [("name",
                         JStr "project 1 unified dataset_dedup_clusters_with_data");
                        ("relativeId", JStr "datasets/10")]))
           "datasets/10"),
     [FetchedUnifiedDataset "projects/1";
      LookedUpByName "project 1 unified dataset_dedup_clusters_with_data"])
  /\ published_clusters_with_data Fixture.client Fixture.project []
     = (Ok (mkResource Dataset
              (Some (JObj [("name",
                            JStr "project 1 unified dataset_dedup_published_clusters_with_data");
                           ("relativeId", JStr "datasets/11")]))
              "datasets/11"),
        [FetchedUnifiedDataset "projects/1";
         LookedUpByName
           "project 1 unified dataset_dedup_published_clusters_with_data"])
  /\ published_clusters Fixture.client Fixture.project []
     = (Ok (mkResource Dataset
              (Some (JObj [("name",
                            JStr "project 1 unified dataset_dedup_published_clusters");
                           ("relativeId", JStr "datasets/9")]))
              "projects/1/publishedClusters"),
        [FetchedUnifiedDataset "projects/1";
         LookedUpByName "project 1 unified dataset_dedup_published_clusters"]).
Proof.
  pose (at_dataset := fun d =>
    @with_data_returns_canonical_dataset
      Fixture.client Fixture.project [] Fixture.unified
      "project 1 unified dataset" d eq_refl eq_refl).
  exact (conj
    (proj1 (at_dataset (Fixture.dataset "10"
       "project 1 unified dataset_dedup_clusters_with_data")) eq_refl)
    (conj
      (proj1 (proj2 (at_dataset (Fixture.dataset "11"
         "project 1 unified dataset_dedup_published_clusters_with_data")))
         eq_refl)
      (proj2 (proj2 (at_dataset (Fixture.dataset "9"
         "project 1 unified dataset_dedup_published_clusters")))
         eq_refl))).
Defined.

(** *** The stream of cluster versions *)

Lemma requests_app (t u : log) :
  requests (t ++ u)%list = (requests t ++ requests u)%list.
Proof.
  induction t as [|e t IH]; [reflexivity|].
  destruct e; cbn; now rewrite IH.
Qed.

Lemma releases_app (t u : log) :
  releases (t ++ u)%list = releases t + releases u.
Proof.
  induction t as [|e t IH]; [reflexivity|].
  destruct e; cbn; now rewrite IH.
Qed.

Section Stream.

Variable client : Client.
Variable json_dumps : string -> string.
Variable json_loads : string -> option json.

Local Abbreviation next := (next client json_dumps json_loads).
Local Abbreviation step := (step client json_dumps json_loads).
Local Abbreviation run := (run client json_dumps json_loads).
Local Abbreviation drain := (drain client json_dumps json_loads).
Local Abbreviation loop := (loop json_loads).

(** One turn of the loop sends nothing, and either keeps the response
    open or releases it once. *)
Lemma loop_effect cluster_class endpoint resp rest t :
  let '((_, g'), t') := loop cluster_class endpoint resp rest t in
  started g' /\ requests t' = requests t
  /\ releases t' + holding g' = S (releases t).
Proof.
  unfold MasteringProject.loop, release.
  destruct rest as [|line rest'].
  - destruct (broken resp); cbn;
      rewrite requests_app, releases_app; cbn;
      rewrite app_nil_r; repeat split; lia.
  - destruct (json_loads line); cbn.
    + repeat split; lia.
    + rewrite requests_app, releases_app; cbn;
        rewrite app_nil_r; repeat split; lia.
Qed.

(** Once the body has started, no call sends a request, and a response
    that is held is released by the call that ends the generator. *)
Lemma step_started c g t :
  started g ->
  let '(g', t') := step c g t in
  started g' /\ requests t' = requests t
  /\ releases t' + holding g' = releases t + holding g.
Proof.
  intros Hstarted. destruct g as [? ? ?|cluster_class endpoint resp rest|];
    [destruct Hstarted| |].
  - destruct c as [| |e]; cbn -[MasteringProject.loop].
    + pose proof (loop_effect cluster_class endpoint resp rest t) as H.
      destruct (loop cluster_class endpoint resp rest t) as [[r g'] t'].
      destruct H as (? & ? & ?). repeat split; auto; lia.
    + unfold release. rewrite requests_app, releases_app; cbn.
      rewrite app_nil_r. repeat split; lia.
    + unfold release. rewrite requests_app, releases_app; cbn.
      rewrite app_nil_r. repeat split; lia.
  - destruct c; cbn; repeat split; lia.
Qed.

Lemma run_started cs : forall g t,
  started g ->
  let '(g', t') := run cs g t in
  started g' /\ requests t' = requests t
  /\ releases t' + holding g' = releases t + holding g.
Proof.
  induction cs as [|c cs IH]; intros g t Hstarted.
  - cbn. repeat split; auto.
  - cbn [MasteringProject.run].
    pose proof (@step_started c g t Hstarted) as Hstep.
    destruct (step c g t) as [g1 t1]. destruct Hstep as (Hs1 & Hq1 & Hr1).
    specialize (IH g1 t1 Hs1).
    destruct (run cs g1 t1) as [g2 t2]. destruct IH as (Hs2 & Hq2 & Hr2).
    repeat split; auto; congruence.
Qed.

(** The first [next] sends the request, and nothing else is sent by
    it. *)
Lemma first_next cluster_class ids endpoint t :
  let '((_, g'), t') := next (Created cluster_class ids endpoint) t in
  started g'
  /\ exists tail,
      t' = (t ++ Sent (versions_request json_dumps endpoint ids) :: tail)%list
      /\ requests tail = []
      /\ match transport client t
                 (versions_request json_dumps endpoint ids) with
         | Ok _ => releases tail + holding g' = 1
         | Raise _ => releases tail + holding g' = 0
         end.
Proof.
  cbn -[MasteringProject.loop]. unfold client_post.
  fold (versions_request json_dumps endpoint ids).
  destruct (transport client t (versions_request json_dumps endpoint ids))
    as [resp|e].
  - set (t1 := (t ++ [Sent (versions_request json_dumps endpoint ids)])%list).
    unfold MasteringProject.loop, release.
    destruct (lines resp) as [|line rest'].
    + destruct (broken resp); cbn; (split; [exact I|]);
        eexists; (split; [subst t1; rewrite <- app_assoc; reflexivity|]);
        split; reflexivity.
    + destruct (json_loads line); cbn; (split; [exact I|]).
      * exists []. subst t1. repeat split.
      * eexists; (split; [subst t1; rewrite <- app_assoc; reflexivity|]);
          split; reflexivity.
  - cbn. split; [exact I|]. exists []. repeat split.
Qed.

(** A session sends the request if and only if it opens with [next],
    and then once. *)
Lemma run_requests cs cluster_class ids endpoint t :
  requests (snd (run cs (Created cluster_class ids endpoint) t))
  = (requests t
     ++ match cs with
        | Next :: _ => [versions_request json_dumps endpoint ids]
        | _ => []
        end)%list.
Proof.
  destruct cs as [|c cs]; [cbn; now rewrite app_nil_r|].
  cbn [MasteringProject.run].
  destruct c as [| |e].
  - cbn [MasteringProject.step].
    pose proof (first_next cluster_class ids endpoint t) as Hfirst.
    destruct (next (Created cluster_class ids endpoint) t) as [[r g1] t1].
    destruct Hfirst as (Hs1 & tail & Ht1 & Hq & _). cbv beta iota.
    pose proof (@run_started cs g1 t1 Hs1) as Hrun.
    destruct (run cs g1 t1) as [g2 t2]. destruct Hrun as (_ & Hq2 & _).
    cbn [snd]. rewrite Hq2. subst t1. rewrite requests_app. cbn.
    now rewrite Hq.
  - cbn. pose proof (@run_started cs Finished t I) as Hrun.
    destruct (run cs Finished t) as [g2 t2]. destruct Hrun as (_ & Hq2 & _).
    cbn [snd]. rewrite Hq2. now rewrite app_nil_r.
  - cbn. pose proof (@run_started cs Finished t I) as Hrun.
    destruct (run cs Finished t) as [g2 t2]. destruct Hrun as (_ & Hq2 & _).
    cbn [snd]. rewrite Hq2. now rewrite app_nil_r.
Qed.

(** While a session that opened with [next] goes on, the response the
    POST returned is either still held or has been released once. *)
Lemma run_releases cs cluster_class ids endpoint t resp :
  transport client t (versions_request json_dumps endpoint ids) = Ok resp ->
  let '(g', t') := run (Next :: cs) (Created cluster_class ids endpoint) t in
  releases t' + holding g' = S (releases t).
Proof.
  intros Hpost. cbn [MasteringProject.run MasteringProject.step].
  pose proof (first_next cluster_class ids endpoint t) as Hfirst.
  destruct (next (Created cluster_class ids endpoint) t) as [[r g1] t1].
  rewrite Hpost in Hfirst. destruct Hfirst as (Hs1 & tail & Ht1 & _ & Hheld).
  cbv beta iota. pose proof (@run_started cs g1 t1 Hs1) as Hrun.
  destruct (run cs g1 t1) as [g2 t2]. destruct Hrun as (_ & _ & Hr).
  subst t1. rewrite releases_app in Hr. cbn in Hr. lia.
Qed.

(** Disposal releases what is held. *)
Lemma close_releases g t :
  releases (snd (close g t)) = releases t + holding g.
Proof.
  destruct g; cbn; unfold release; rewrite ?releases_app; cbn; lia.
Qed.

(** Draining a suspended generator whose remaining lines all decode and
    whose connection does not break. *)
Lemma drain_suspended cluster_class endpoint resp :
  broken resp = None ->
  forall rest vs,
    Forall2 (fun line v => json_loads line = Some v) rest vs ->
    forall fuel t,
      length rest < fuel ->
      drain fuel (Suspended cluster_class endpoint resp rest) t
      = ((mkDrained (map cluster_class vs) (Some StopIteration), Finished),
         (t ++ [Released endpoint])%list).
Proof.
  intros Hsound rest vs Hdecode.
  induction Hdecode as [|line v rest' vs' Hline _ IH]; intros fuel t Hfuel.
  - destruct fuel as [|fuel]; [inversion Hfuel|].
    cbn. now rewrite Hsound.
  - destruct fuel as [|fuel]; [inversion Hfuel|].
    cbn [MasteringProject.drain MasteringProject.next MasteringProject.loop].
    rewrite Hline. rewrite IH by (cbn in Hfuel; lia). reflexivity.
Qed.

(** The first [next] of a generator whose request is answered continues
    as a suspended generator at the first line would. *)
Lemma drain_created cluster_class ids endpoint resp fuel t :
  transport client t (versions_request json_dumps endpoint ids) = Ok resp ->
  drain (S fuel) (Created cluster_class ids endpoint) t
  = drain (S fuel) (Suspended cluster_class endpoint resp (lines resp))
      (t ++ [Sent (versions_request json_dumps endpoint ids)])%list.
Proof.
  intros Hpost.
  cbn [MasteringProject.drain MasteringProject.next]. unfold client_post.
  fold (versions_request json_dumps endpoint ids).
  now rewrite Hpost.
Qed.

End Stream.

(** C9. Calling [published_cluster_versions] or
    [record_published_cluster_versions] leaves the log of client operations
    untouched and returns a generator that has not started.  The first
    [next] on it appends the POST to the log, followed by no other
    request; and over any session with the generator, the requests sent
    are that one POST when the session opens with [next], and none
    otherwise. *)
Theorem cluster_versions_post_on_first_next :
  forall (client : Client) (json_dumps : string -> string)
         (json_loads : string -> option json)
         (self : Resource) (ids : list string) (t : log),
    published_cluster_versions self ids t
    = (Ok (Created PublishedCluster ids
             (api_path self ++ "/publishedClusterVersions")), t)
    /\ record_published_cluster_versions self ids t
       = (Ok (Created RecordPublishedCluster ids
                (api_path self ++ "/recordPublishedClusterVersions")), t)
    /\ forall (cluster_class : json -> cluster) (endpoint : string),
         let g := Created cluster_class ids endpoint in
         let post :=
           mkRequest POST endpoint
             (DataPayload (String.concat newline (map json_dumps ids))) true in
         (exists tail,
             snd (next client json_dumps json_loads g t)
             = (t ++ Sent post :: tail)%list
             /\ requests tail = [])
         /\ (forall cs : list call,
                requests (snd (run client json_dumps json_loads cs g t))
                = (requests t
                   ++ match cs with Next :: _ => [post] | _ => [] end)%list).
Proof.
  intros client json_dumps json_loads self ids t.
  split; [reflexivity|]. split; [reflexivity|].
  intros cluster_class endpoint g post. split.
  - pose proof (first_next client json_dumps json_loads
                  cluster_class ids endpoint t) as Hfirst.
    fold g in Hfirst.
    destruct (next client json_dumps json_loads g t) as [[r g1] t1].
    destruct Hfirst as (_ & tail & Ht1 & Hq & _).
    exists tail. split; [exact Ht1 | exact Hq].
  - intros cs. apply run_requests.
Qed.

(** C5. Take a generator made by [_cluster_versions] whose POST is
    answered with a response, and any session that starts iterating it:
    any calls of [next], [close] and [throw] after the first [next], with
    lines that decode or not and a connection that breaks or not.  At
    every point of the session the response is either still held by the
    suspended generator or has been released once, and when the generator
    object is disposed of, the response has been released exactly once. *)
Theorem connection_released_exactly_once :
  forall (client : Client) (json_dumps : string -> string)
         (json_loads : string -> option json)
         (self : Resource) (cluster_class : json -> cluster)
         (ids : list string) (endpoint : string)
         (t : log) (g : generator) (resp : response) (cs : list call),
    _cluster_versions self cluster_class ids endpoint t = (Ok g, t) ->
    transport client t
      (mkRequest POST endpoint
         (DataPayload (String.concat newline (map json_dumps ids))) true)
    = Ok resp ->
    releases (session client json_dumps json_loads (Next :: cs) g t)
    = S (releases t)
    /\ releases (snd (run client json_dumps json_loads (Next :: cs) g t))
       + holding (fst (run client json_dumps json_loads (Next :: cs) g t))
       = S (releases t).
Proof.
  intros client json_dumps json_loads self cluster_class ids endpoint
         t g resp cs Hmade Hpost.
  injection Hmade as <-.
  pose proof (@run_releases client json_dumps json_loads cs cluster_class
                ids endpoint t resp Hpost) as Hrun.
  unfold session.
  destruct (run client json_dumps json_loads (Next :: cs)
              (Created cluster_class ids endpoint) t) as [g' t'].
  split; [|exact Hrun].
  rewrite close_releases. exact Hrun.
Qed.

(** Three sessions on the fixture: the caller drops the generator after
    the first element, consumes it to the end, or throws into it. *)
Lemma connection_released_exactly_once_witness :
  let g := Created PublishedCluster ["id1"; "id2"]
             "projects/1/publishedClusterVersions" in
  releases (session Fixture.client Fixture.dumps Fixture.loads
              [Next] g []) = 1
  /\ releases (session Fixture.client Fixture.dumps Fixture.loads
                 [Next; Next; Next] g []) = 1
  /\ releases (session Fixture.client Fixture.dumps Fixture.loads
                 [Next; Throw (UserError "stop")] g []) = 1.
Proof.
  intros g.
  pose (once := fun cs =>
    proj1 (@connection_released_exactly_once
             Fixture.client Fixture.dumps Fixture.loads Fixture.project
             PublishedCluster ["id1"; "id2"]
             "projects/1/publishedClusterVersions" [] g
             (mkResponse 200 EmptyString
                ["version-of-id1"; "version-of-id2"] None)
             cs eq_refl eq_refl)).
  exact (conj (once []) (conj (once [Next; Next])
                              (once [Throw (UserError "stop")]))).
Defined.

(** C3. When the POST of [published_cluster_versions(ids)] is answered
    with a response whose lines all decode and whose connection does not
    break, iterating the generator to the end (any number of [next] calls
    above the number of lines) performs exactly the POST to
    [api_path ++ "/publishedClusterVersions"], streamed, with the encoded
    identifiers joined by newlines as its body, then the release of the
    response; and it yields, in line order, one [PublishedCluster] per
    line, built from the value the line decodes to. *)
Theorem published_cluster_versions_stream :
  forall (client : Client) (json_dumps : string -> string)
         (json_loads : string -> option json)
         (self : Resource) (ids : list string) (t : log)
         (resp : response) (vs : list json),
    let path := api_path self ++ "/publishedClusterVersions" in
    let post :=
      mkRequest POST path
        (DataPayload (String.concat newline (map json_dumps ids))) true in
    transport client t post = Ok resp ->
    broken resp = None ->
    Forall2 (fun line v => json_loads line = Some v) (lines resp) vs ->
    published_cluster_versions self ids t
    = (Ok (Created PublishedCluster ids path), t)
    /\ forall fuel : nat,
         length (lines resp) < fuel ->
         drain client json_dumps json_loads fuel
           (Created PublishedCluster ids path) t
         = ((mkDrained (map PublishedCluster vs) (Some StopIteration),
             Finished),
            (t ++ [Sent post; Released path])%list).
Proof.
  intros client json_dumps json_loads self ids t resp vs path post
         Hpost Hsound Hdecode.
  split; [reflexivity|].
  intros fuel Hfuel. destruct fuel as [|fuel]; [inversion Hfuel|].
  rewrite (@drain_created client json_dumps json_loads PublishedCluster
             ids path resp fuel t Hpost).
  rewrite (@drain_suspended client json_dumps json_loads PublishedCluster
             path resp Hsound (lines resp) vs Hdecode (S fuel) _ Hfuel).
  now rewrite <- app_assoc.
Qed.

(** Scenario C of the unit tests: two identifiers, two lines. *)
Lemma published_cluster_versions_stream_witness :
  drain Fixture.client Fixture.dumps Fixture.loads 3
    (Created PublishedCluster ["id1"; "id2"]
       "projects/1/publishedClusterVersions") []
  = ((mkDrained [PublishedCluster (Fixture.version "id1");
                 PublishedCluster (Fixture.version "id2")]
        (Some StopIteration), Finished),
     [Sent (mkRequest POST "projects/1/publishedClusterVersions"
              (DataPayload (Fixture.quote ++ "id1" ++ Fixture.quote
                            ++ newline
                            ++ Fixture.quote ++ "id2" ++ Fixture.quote))
              true);
      Released "projects/1/publishedClusterVersions"]).
Proof.
  refine (proj2 (@published_cluster_versions_stream
                   Fixture.client Fixture.dumps Fixture.loads
                   Fixture.project ["id1"; "id2"] []
                   (mkResponse 200 EmptyString
                      ["version-of-id1"; "version-of-id2"] None)
                   [Fixture.version "id1"; Fixture.version "id2"]
                   eq_refl eq_refl _) 3 _).
  - repeat constructor.
  - cbn. lia.
Defined.

(** *** Creating an attribute configuration *)

(** [create] performs exactly one client operation, the POST of the
    specification to the path of the collection, whatever comes back. *)
Lemma create_sends_one_post (client : Client)
    (json_loads : string -> option json)
    (self : AttributeConfigurationCollection.Collection)
    (creation_spec : json) (t : log) :
  snd (AttributeConfigurationCollection.create client json_loads
         self creation_spec t)
  = (t ++ [Sent (mkRequest POST
                   (AttributeConfigurationCollection.collection_path self)
                   (JsonPayload creation_spec) false)])%list.
Proof.
  unfold AttributeConfigurationCollection.create, bind at 1, client_post.
  destruct (transport client t _) as [resp|e]; [|reflexivity].
  unfold bind at 1, successful.
  destruct ((200 <=? status_code resp)%Z && (status_code resp <? 300)%Z);
    [|destruct (status_code resp =? 404)%Z;
       [|destruct ((status_code resp =? 401)%Z || (status_code resp =? 403)%Z)];
       reflexivity].
  unfold ret at 1, bind at 1, AttributeConfigurationCollection.response_json.
  destruct (json_loads (text resp)) as [data|]; [|reflexivity].
  unfold ret at 1, from_json, lift. reflexivity.
Qed.

(** C4. [create(spec)] sends one POST of [spec] to the path of the
    collection and nothing else.  When the answer has a 2xx status and its
    body decodes to an object [data] whose [relativeId] is the string
    [rid], the result is an [AttributeConfiguration] whose body is [data]
    and whose [relative_id] is [rid]. *)
Theorem create_returns_created_configuration :
  forall (client : Client) (json_loads : string -> option json)
         (self : AttributeConfigurationCollection.Collection)
         (creation_spec : json) (t : log)
         (resp : response) (members : list (string * json)) (rid : string),
    let post :=
      mkRequest POST (AttributeConfigurationCollection.collection_path self)
        (JsonPayload creation_spec) false in
    transport client t post = Ok resp ->
    (200 <= status_code resp < 300)%Z ->
    json_loads (text resp) = Some (JObj members) ->
    assoc "relativeId" members = Some (JStr rid) ->
    exists created : Resource,
      AttributeConfigurationCollection.create client json_loads
        self creation_spec t
      = (Ok created, (t ++ [Sent post])%list)
      /\ cls created = AttributeConfiguration
      /\ _data created = Some (JObj members)
      /\ relative_id created = Some (JStr rid).
Proof.
  intros client json_loads self creation_spec t resp members rid post
         Hpost Hstatus Hbody Hrid.
  exists (mkResource AttributeConfiguration (Some (JObj members)) rid).
  split; [|repeat split; exact Hrid].
  unfold AttributeConfigurationCollection.create, bind at 1, client_post.
  fold post. rewrite Hpost.
  unfold bind at 1, successful.
  replace ((200 <=? status_code resp)%Z && (status_code resp <? 300)%Z)
    with true
    by (symmetry; apply andb_true_iff; split;
        [apply Z.leb_le | apply Z.ltb_lt]; lia).
  unfold ret at 1, bind at 1, AttributeConfigurationCollection.response_json.
  rewrite Hbody.
  unfold ret at 1, from_json, lift, construct. rewrite Hrid. reflexivity.
Qed.

(** Scenario B of the unit tests: the platform answers 204 with the
    created object. *)
Lemma create_returns_created_configuration_witness :
  exists created : Resource,
    AttributeConfigurationCollection.create Fixture.client Fixture.loads
      Fixture.collection (JArr [Fixture.created]) []
    = (Ok created,
       [Sent (mkRequest POST "projects/1/attributeConfigurations"
                (JsonPayload (JArr [Fixture.created])) false)])
    /\ cls created = AttributeConfiguration
    /\ _data created = Some Fixture.created
    /\ relative_id created
       = Some (JStr "projects/1/attributeConfigurations/35").
Proof.
  refine (@create_returns_created_configuration
            Fixture.client Fixture.loads Fixture.collection
            (JArr [Fixture.created]) []
            (mkResponse 204 "created-35" [] None) _
            "projects/1/attributeConfigurations/35"
            eq_refl _ eq_refl eq_refl).
  cbn. lia.
Defined.

(* ===================================================================== *)
(** ** Further properties                                                 *)
(* ===================================================================== *)

(** *** The stream of cluster versions, when things go wrong *)

Section StreamEdges.

Variable client : Client.
Variable json_dumps : string -> string.
Variable json_loads : string -> option json.

Local Abbreviation drain := (drain client json_dumps json_loads).
Local Abbreviation run := (run client json_dumps json_loads).

(** Draining to a line that does not decode. *)
Lemma drain_suspended_undecodable cluster_class endpoint resp bad post :
  json_loads bad = None ->
  forall pre vs,
    Forall2 (fun line v => json_loads line = Some v) pre vs ->
    forall fuel t,
      length pre < fuel ->
      drain fuel
        (Suspended cluster_class endpoint resp (pre ++ bad :: post)%list) t
      = ((mkDrained (map cluster_class vs) (Some JSONDecodeError), Finished),
         (t ++ [Released endpoint])%list).
Proof.
  intros Hbad pre vs Hdecode.
  induction Hdecode as [|line v pre' vs' Hline _ IH]; intros fuel t Hfuel.
  - destruct fuel as [|fuel]; [inversion Hfuel|].
    cbn. now rewrite Hbad.
  - destruct fuel as [|fuel]; [inversion Hfuel|].
    cbn [MasteringProject.drain MasteringProject.next MasteringProject.loop
         app].
    rewrite Hline. rewrite IH by (cbn in Hfuel; lia). reflexivity.
Qed.

(** Draining a stream whose connection breaks after the last line. *)
Lemma drain_suspended_broken cluster_class endpoint resp e :
  broken resp = Some e ->
  forall rest vs,
    Forall2 (fun line v => json_loads line = Some v) rest vs ->
    forall fuel t,
      length rest < fuel ->
      drain fuel (Suspended cluster_class endpoint resp rest) t
      = ((mkDrained (map cluster_class vs) (Some e), Finished),
         (t ++ [Released endpoint])%list).
Proof.
  intros Hbroken rest vs Hdecode.
  induction Hdecode as [|line v rest' vs' Hline _ IH]; intros fuel t Hfuel.
  - destruct fuel as [|fuel]; [inversion Hfuel|].
    cbn. now rewrite Hbroken.
  - destruct fuel as [|fuel]; [inversion Hfuel|].
    cbn [MasteringProject.drain MasteringProject.next MasteringProject.loop].
    rewrite Hline. rewrite IH by (cbn in Hfuel; lia). reflexivity.
Qed.

(** Taking as many elements as there are lines in [pre] leaves the
    generator parked before the rest, and the log as it was. *)
Lemma drain_suspended_partial cluster_class endpoint resp post :
  forall pre vs,
    Forall2 (fun line v => json_loads line = Some v) pre vs ->
    forall t,
      drain (length pre)
        (Suspended cluster_class endpoint resp (pre ++ post)%list) t
      = ((mkDrained (map cluster_class vs) None,
          Suspended cluster_class endpoint resp post), t).
Proof.
  intros pre vs Hdecode.
  induction Hdecode as [|line v pre' vs' Hline _ IH]; intros t.
  - reflexivity.
  - cbn [MasteringProject.drain MasteringProject.next MasteringProject.loop
         app length].
    rewrite Hline. rewrite IH. reflexivity.
Qed.

(** A finished generator ignores every call. *)
Lemma run_finished cs : forall t, run cs Finished t = (Finished, t).
Proof.
  induction cs as [|c cs IH]; intros t; [reflexivity|].
  cbn [MasteringProject.run]. destruct c; cbn; apply IH.
Qed.

(** The disposal sends nothing. *)
Lemma session_requests cs g t :
  requests (session client json_dumps json_loads cs g t)
  = requests (snd (run cs g t)).
Proof.
  unfold session. destruct (run cs g t) as [g' t'].
  destruct g'; cbn; unfold release; rewrite ?requests_app; cbn;
    now rewrite ?app_nil_r.
Qed.

End StreamEdges.

(** What is yielded and logged does not depend on the status and the
    text of the response. *)
Lemma drain_suspended_ignores_status (client client' : Client)
    (json_dumps : string -> string) (json_loads : string -> option json)
    (cluster_class : json -> cluster) (endpoint : string)
    (resp resp' : response) :
  broken resp = broken resp' ->
  forall fuel rest t,
    fst (fst (drain client json_dumps json_loads fuel
                (Suspended cluster_class endpoint resp rest) t))
    = fst (fst (drain client' json_dumps json_loads fuel
                  (Suspended cluster_class endpoint resp' rest) t))
    /\ snd (drain client json_dumps json_loads fuel
              (Suspended cluster_class endpoint resp rest) t)
       = snd (drain client' json_dumps json_loads fuel
                (Suspended cluster_class endpoint resp' rest) t).
Proof.
  intros Hbroken fuel.
  induction fuel as [|fuel IH]; intros rest t; [split; reflexivity|].
  destruct rest as [|line rest'];
    cbn [MasteringProject.drain MasteringProject.next MasteringProject.loop].
  - rewrite <- Hbroken. destruct (broken resp); split; reflexivity.
  - destruct (json_loads line) as [v|]; [|split; reflexivity].
    specialize (IH rest' t).
    destruct (drain client json_dumps json_loads fuel
                (Suspended cluster_class endpoint resp rest') t)
      as [[d g] t1].
    destruct (drain client' json_dumps json_loads fuel
                (Suspended cluster_class endpoint resp' rest') t)
      as [[d' g'] t1'].
    cbn in IH |- *. destruct IH as [-> ->]. split; reflexivity.
Qed.

(** X1. When the POST of [record_published_cluster_versions(ids)] is
    answered with a response whose lines all decode and whose connection
    does not break, iterating the generator to the end performs exactly
    the streamed POST to [api_path ++ "/recordPublishedClusterVersions"]
    with the encoded identifiers joined by newlines, then the release, and
    yields one [RecordPublishedCluster] per line, in line order. *)
Theorem record_published_cluster_versions_stream :
  forall (client : Client) (json_dumps : string -> string)
         (json_loads : string -> option json)
         (self : Resource) (ids : list string) (t : log)
         (resp : response) (vs : list json),
    let path := api_path self ++ "/recordPublishedClusterVersions" in
    let post :=
      mkRequest POST path
        (DataPayload (String.concat newline (map json_dumps ids))) true in
    transport client t post = Ok resp ->
    broken resp = None ->
    Forall2 (fun line v => json_loads line = Some v) (lines resp) vs ->
    record_published_cluster_versions self ids t
    = (Ok (Created RecordPublishedCluster ids path), t)
    /\ forall fuel : nat,
         length (lines resp) < fuel ->
         drain client json_dumps json_loads fuel
           (Created RecordPublishedCluster ids path) t
         = ((mkDrained (map RecordPublishedCluster vs) (Some StopIteration),
             Finished),
            (t ++ [Sent post; Released path])%list).
Proof.
  intros client json_dumps json_loads self ids t resp vs path post
         Hpost Hsound Hdecode.
  split; [reflexivity|].
  intros fuel Hfuel. destruct fuel as [|fuel]; [inversion Hfuel|].
  rewrite (@drain_created client json_dumps json_loads RecordPublishedCluster
             ids path resp fuel t Hpost).
  rewrite (@drain_suspended client json_dumps json_loads
             RecordPublishedCluster path resp Hsound (lines resp) vs Hdecode
             (S fuel) _ Hfuel).
  now rewrite <- app_assoc.
Qed.

Lemma record_published_cluster_versions_stream_witness :
  drain Mishaps.client Fixture.dumps Mishaps.loads 3
    (Created RecordPublishedCluster ["r1"; "r2"]
       "projects/1/recordPublishedClusterVersions") []
  = ((mkDrained [RecordPublishedCluster (Fixture.version "id1");
                 RecordPublishedCluster (Fixture.version "id2")]
        (Some StopIteration), Finished),
     [Sent (mkRequest POST "projects/1/recordPublishedClusterVersions"
              (DataPayload (Fixture.quote ++ "r1" ++ Fixture.quote
                            ++ newline
                            ++ Fixture.quote ++ "r2" ++ Fixture.quote))
              true);
      Released "projects/1/recordPublishedClusterVersions"]).
Proof.
  refine (proj2 (@record_published_cluster_versions_stream
                   Mishaps.client Fixture.dumps Mishaps.loads
                   (Mishaps.project "1") ["r1"; "r2"] []
                   (mkResponse 200 EmptyString Mishaps.two_lines None)
                   [Fixture.version "id1"; Fixture.version "id2"]
                   eq_refl eq_refl _) 3 _).
  - repeat constructor.
  - cbn. lia.
Defined.

(** X2. When the lines of the response decode up to a line that does
    not, iterating the generator yields the objects of the lines before
    it, in order, and then raises the decoding error; the response is
    released once and the lines after the bad one are never delivered:
    the generator is finished. *)
Theorem undecodable_line_ends_the_stream :
  forall (client : Client) (json_dumps : string -> string)
         (json_loads : string -> option json)
         (cluster_class : json -> cluster) (ids : list string)
         (endpoint : string) (t : log) (resp : response)
         (pre : list string) (bad : string) (post : list string)
         (vs : list json),
    let sent :=
      mkRequest POST endpoint
        (DataPayload (String.concat newline (map json_dumps ids))) true in
    transport client t sent = Ok resp ->
    lines resp = (pre ++ bad :: post)%list ->
    Forall2 (fun line v => json_loads line = Some v) pre vs ->
    json_loads bad = None ->
    forall fuel : nat,
      length pre < fuel ->
      drain client json_dumps json_loads fuel
        (Created cluster_class ids endpoint) t
      = ((mkDrained (map cluster_class vs) (Some JSONDecodeError), Finished),
         (t ++ [Sent sent; Released endpoint])%list).
Proof.
  intros client json_dumps json_loads cluster_class ids endpoint t resp
         pre bad post vs sent Hpost Hlines Hdecode Hbad fuel Hfuel.
  destruct fuel as [|fuel]; [inversion Hfuel|].
  rewrite (@drain_created client json_dumps json_loads cluster_class
             ids endpoint resp fuel t Hpost).
  rewrite Hlines.
  rewrite (@drain_suspended_undecodable client json_dumps json_loads
             cluster_class endpoint resp bad post Hbad pre vs Hdecode
             (S fuel) _ Hfuel).
  now rewrite <- app_assoc.
Qed.

Lemma undecodable_line_ends_the_stream_witness :
  drain Mishaps.client Fixture.dumps Mishaps.loads 5
    (Created PublishedCluster ["id1"; "id2"]
       "projects/1/publishedClusterVersions") []
  = ((mkDrained [PublishedCluster (Fixture.version "id1")]
        (Some JSONDecodeError), Finished),
     [Sent (mkRequest POST "projects/1/publishedClusterVersions"
              (DataPayload (Fixture.quote ++ "id1" ++ Fixture.quote
                            ++ newline
                            ++ Fixture.quote ++ "id2" ++ Fixture.quote))
              true);
      Released "projects/1/publishedClusterVersions"]).
Proof.
  refine (@undecodable_line_ends_the_stream
            Mishaps.client Fixture.dumps Mishaps.loads PublishedCluster
            ["id1"; "id2"] "projects/1/publishedClusterVersions" []
            (mkResponse 200 EmptyString
               ["version-of-id1"; "not json"; "version-of-id2"] None)
            ["version-of-id1"] "not json" ["version-of-id2"]
            [Fixture.version "id1"]
            eq_refl eq_refl _ eq_refl 5 _).
  - repeat constructor.
  - cbn. lia.
Defined.

(** X3. When every line decodes and the connection then breaks with an
    exception [e], iterating the generator yields the objects of all the
    lines, in order, and then raises [e] itself; the response is released
    once. *)
Theorem broken_connection_is_raised_after_the_lines :
  forall (client : Client) (json_dumps : string -> string)
         (json_loads : string -> option json)
         (cluster_class : json -> cluster) (ids : list string)
         (endpoint : string) (t : log) (resp : response)
         (e : exn) (vs : list json),
    let sent :=
      mkRequest POST endpoint
        (DataPayload (String.concat newline (map json_dumps ids))) true in
    transport client t sent = Ok resp ->
    broken resp = Some e ->
    Forall2 (fun line v => json_loads line = Some v) (lines resp) vs ->
    forall fuel : nat,
      length (lines resp) < fuel ->
      drain client json_dumps json_loads fuel
        (Created cluster_class ids endpoint) t
      = ((mkDrained (map cluster_class vs) (Some e), Finished),
         (t ++ [Sent sent; Released endpoint])%list).
Proof.
  intros client json_dumps json_loads cluster_class ids endpoint t resp
         e vs sent Hpost Hbroken Hdecode fuel Hfuel.
  destruct fuel as [|fuel]; [inversion Hfuel|].
  rewrite (@drain_created client json_dumps json_loads cluster_class
             ids endpoint resp fuel t Hpost).
  rewrite (@drain_suspended_broken client json_dumps json_loads
             cluster_class endpoint resp e Hbroken (lines resp) vs Hdecode
             (S fuel) _ Hfuel).
  now rewrite <- app_assoc.
Qed.

Lemma broken_connection_is_raised_after_the_lines_witness :
  drain Mishaps.client Fixture.dumps Mishaps.loads 3
    (Created PublishedCluster ["id1"]
       "projects/2/publishedClusterVersions") []
  = ((mkDrained [PublishedCluster (Fixture.version "id1");
                 PublishedCluster (Fixture.version "id2")]
        (Some TransportError), Finished),
     [Sent (mkRequest POST "projects/2/publishedClusterVersions"
              (DataPayload (Fixture.quote ++ "id1" ++ Fixture.quote)) true);
      Released "projects/2/publishedClusterVersions"]).
Proof.
  refine (@broken_connection_is_raised_after_the_lines
            Mishaps.client Fixture.dumps Mishaps.loads PublishedCluster
            ["id1"] "projects/2/publishedClusterVersions" []
            (mkResponse 200 EmptyString Mishaps.two_lines
               (Some TransportError))
            TransportError
            [Fixture.version "id1"; Fixture.version "id2"]
            eq_refl eq_refl _ 3 _).
  - repeat constructor.
  - cbn. lia.
Defined.

(** X4. When the POST itself fails with an exception [e], the first
    [next] raises [e] unchanged and the generator is finished.  Whatever
    the caller does afterwards, the log of the whole session holds the one
    POST and nothing else: there is no second attempt, and no release,
    since no response was obtained. *)
Theorem failed_post_is_raised_by_first_next :
  forall (client : Client) (json_dumps : string -> string)
         (json_loads : string -> option json)
         (cluster_class : json -> cluster) (ids : list string)
         (endpoint : string) (t : log) (e : exn),
    let sent :=
      mkRequest POST endpoint
        (DataPayload (String.concat newline (map json_dumps ids))) true in
    transport client t sent = Raise e ->
    next client json_dumps json_loads (Created cluster_class ids endpoint) t
    = ((Raise e, Finished), (t ++ [Sent sent])%list)
    /\ forall cs : list call,
         session client json_dumps json_loads (Next :: cs)
           (Created cluster_class ids endpoint) t
         = (t ++ [Sent sent])%list.
Proof.
  intros client json_dumps json_loads cluster_class ids endpoint t e sent
         Hpost.
  assert (Hnext :
    next client json_dumps json_loads (Created cluster_class ids endpoint) t
    = ((Raise e, Finished), (t ++ [Sent sent])%list)).
  { cbn [MasteringProject.next]. unfold client_post. fold sent.
    now rewrite Hpost. }
  split; [exact Hnext|].
  intros cs. unfold session.
  cbn [MasteringProject.run MasteringProject.step]. rewrite Hnext.
  cbv beta iota. now rewrite run_finished.
Qed.

Lemma failed_post_is_raised_by_first_next_witness :
  session Mishaps.client Fixture.dumps Mishaps.loads [Next; Next; Close]
    (Created PublishedCluster ["id1"] "projects/9/publishedClusterVersions")
    []
  = [Sent (mkRequest POST "projects/9/publishedClusterVersions"
             (DataPayload (Fixture.quote ++ "id1" ++ Fixture.quote)) true)].
Proof.
  exact (proj2 (@failed_post_is_raised_by_first_next
                  Mishaps.client Fixture.dumps Mishaps.loads PublishedCluster
                  ["id1"] "projects/9/publishedClusterVersions" []
                  TransportError eq_refl) [Next; Close]).
Defined.

(** X5. After [k] elements have been taken ([k] at least one and at most
    the number of lines, the first [k] lines decoding), the generator is
    suspended before the remaining lines and the response is still held:
    the log holds the POST and no release. *)
Theorem response_is_held_while_suspended :
  forall (client : Client) (json_dumps : string -> string)
         (json_loads : string -> option json)
         (cluster_class : json -> cluster) (ids : list string)
         (endpoint : string) (t : log) (resp : response)
         (k : nat) (vs : list json),
    let sent :=
      mkRequest POST endpoint
        (DataPayload (String.concat newline (map json_dumps ids))) true in
    transport client t sent = Ok resp ->
    0 < k <= length (lines resp) ->
    Forall2 (fun line v => json_loads line = Some v)
      (firstn k (lines resp)) vs ->
    drain client json_dumps json_loads k
      (Created cluster_class ids endpoint) t
    = ((mkDrained (map cluster_class vs) None,
        Suspended cluster_class endpoint resp (skipn k (lines resp))),
       (t ++ [Sent sent])%list).
Proof.
  intros client json_dumps json_loads cluster_class ids endpoint t resp
         k vs sent Hpost [Hpos Hle] Hdecode.
  destruct k as [|k]; [inversion Hpos|].
  rewrite (@drain_created client json_dumps json_loads cluster_class
             ids endpoint resp k t Hpost).
  rewrite <- (firstn_skipn (S k) (lines resp)) at 1.
  rewrite <- (firstn_length_le (lines resp) Hle) at 1.
  apply drain_suspended_partial. exact Hdecode.
Qed.

Lemma response_is_held_while_suspended_witness :
  drain Fixture.client Fixture.dumps Fixture.loads 1
    (Created PublishedCluster ["id1"; "id2"]
       "projects/1/publishedClusterVersions") []
  = ((mkDrained [PublishedCluster (Fixture.version "id1")] None,
      Suspended PublishedCluster "projects/1/publishedClusterVersions"
        (mkResponse 200 EmptyString
           ["version-of-id1"; "version-of-id2"] None)
        ["version-of-id2"]),
     [Sent (mkRequest POST "projects/1/publishedClusterVersions"
              (DataPayload (Fixture.quote ++ "id1" ++ Fixture.quote
                            ++ newline
                            ++ Fixture.quote ++ "id2" ++ Fixture.quote))
              true)]).
Proof.
  refine (@response_is_held_while_suspended
            Fixture.client Fixture.dumps Fixture.loads PublishedCluster
            ["id1"; "id2"] "projects/1/publishedClusterVersions" []
            (mkResponse 200 EmptyString
               ["version-of-id1"; "version-of-id2"] None)
            1 [Fixture.version "id1"] eq_refl _ _).
  - cbn. lia.
  - repeat constructor.
Defined.

(** X6. The generator does not look at the status or the text of the
    response: two platforms that answer the POST with responses carrying
    the same lines and the same end of stream make it yield the same
    objects, end the same way and log the same operations, whatever the
    two status codes are. *)
Theorem stream_ignores_the_status :
  forall (client client' : Client) (json_dumps : string -> string)
         (json_loads : string -> option json)
         (cluster_class : json -> cluster) (ids : list string)
         (endpoint : string) (t : log) (resp resp' : response)
         (fuel : nat),
    let sent :=
      mkRequest POST endpoint
        (DataPayload (String.concat newline (map json_dumps ids))) true in
    transport client t sent = Ok resp ->
    transport client' t sent = Ok resp' ->
    lines resp = lines resp' ->
    broken resp = broken resp' ->
    fst (fst (drain client json_dumps json_loads fuel
                (Created cluster_class ids endpoint) t))
    = fst (fst (drain client' json_dumps json_loads fuel
                  (Created cluster_class ids endpoint) t))
    /\ snd (drain client json_dumps json_loads fuel
              (Created cluster_class ids endpoint) t)
       = snd (drain client' json_dumps json_loads fuel
                (Created cluster_class ids endpoint) t).
Proof.
  intros client client' json_dumps json_loads cluster_class ids endpoint t
         resp resp' fuel sent Hpost Hpost' Hlines Hbroken.
  destruct fuel as [|fuel]; [split; reflexivity|].
  rewrite (@drain_created client json_dumps json_loads cluster_class
             ids endpoint resp fuel t Hpost).
  rewrite (@drain_created client' json_dumps json_loads cluster_class
             ids endpoint resp' fuel t Hpost').
  rewrite Hlines.
  apply drain_suspended_ignores_status. exact Hbroken.
Qed.

(** A 404 answer whose body has two lines is streamed like a 200 one. *)
Lemma stream_ignores_the_status_witness :
  fst (fst (drain Mishaps.client Fixture.dumps Fixture.loads 3
              (Created PublishedCluster ["id1"; "id2"]
                 "projects/3/publishedClusterVersions") []))
  = mkDrained [PublishedCluster (Fixture.version "id1");
               PublishedCluster (Fixture.version "id2")]
      (Some StopIteration).
Proof.
  pose (ok := mkClient
                (fun _ _ => Ok (mkResponse 200 EmptyString
                                  Mishaps.two_lines None))
                (unified_dataset_of Mishaps.client)
                (datasets Mishaps.client)).
  exact (proj1 (@stream_ignores_the_status
                  Mishaps.client ok Fixture.dumps Fixture.loads
                  PublishedCluster ["id1"; "id2"]
                  "projects/3/publishedClusterVersions" []
                  (mkResponse 404 "no such project" Mishaps.two_lines None)
                  (mkResponse 200 EmptyString Mishaps.two_lines None)
                  3 eq_refl eq_refl eq_refl eq_refl)).
Defined.

(** X7. Nothing is shared between two generators: when one generator is
    iterated and disposed of and then a second one is, each session
    opening with [next], the requests sent are the POST of the first
    followed by the POST of the second, also when both were made with the
    same identifiers and endpoint. *)
Theorem each_generator_sends_its_own_post :
  forall (client : Client) (json_dumps : string -> string)
         (json_loads : string -> option json)
         (cluster_class cluster_class' : json -> cluster)
         (ids ids' : list string) (endpoint endpoint' : string)
         (cs cs' : list call) (t : log),
    let post ep xs :=
      mkRequest POST ep
        (DataPayload (String.concat newline (map json_dumps xs))) true in
    requests
      (session client json_dumps json_loads (Next :: cs')
         (Created cluster_class' ids' endpoint')
         (session client json_dumps json_loads (Next :: cs)
            (Created cluster_class ids endpoint) t))
    = (requests t ++ [post endpoint ids; post endpoint' ids'])%list.
Proof.
  intros client json_dumps json_loads cluster_class cluster_class'
         ids ids' endpoint endpoint' cs cs' t post.
  rewrite session_requests, run_requests.
  rewrite session_requests, run_requests.
  now rewrite <- app_assoc.
Qed.

(** *** Datasets resolved through a derived name, further cases *)

Section DerivedNameEdges.

Variable client : Client.
Variables (self : Resource) (t : log).

Ltac open_method op :=
  destruct op; cbn [method_of];
  unfold published_clusters, published_cluster_ids,
    published_cluster_stats, record_clusters_with_data,
    published_clusters_with_data;
  unfold bind at 1; unfold unified_dataset at 1.

(** When the unified dataset cannot be fetched, the method stops there. *)
Lemma derived_fetch_failed (op : derived) (e : exn) :
  unified_dataset_of client t (api_path self) = Raise e ->
  method_of client op self t
  = (Raise e, (t ++ [FetchedUnifiedDataset (api_path self)])%list).
Proof.
  intros Hfetch. open_method op; rewrite Hfetch; reflexivity.
Qed.

(** When its name is not a string, the concatenation fails. *)
Lemma derived_name_not_str (op : derived) (ud : Resource) (v : json) :
  unified_dataset_of client t (api_path self) = Ok ud ->
  body_field "name" ud = Some v ->
  (forall s, v <> JStr s) ->
  method_of client op self t
  = (Raise TypeError, (t ++ [FetchedUnifiedDataset (api_path self)])%list).
Proof.
  intros Hfetch Hname Hnot.
  open_method op; rewrite Hfetch;
    unfold bind at 1; unfold name at 1; rewrite Hname; unfold ret at 1;
    unfold bind at 1; unfold str_add;
    (destruct v as [| | |s| |]; [..|exfalso; exact (Hnot s eq_refl)| |]);
    reflexivity.
Qed.

End DerivedNameEdges.

(** X8. When the unified dataset is named [N] and the collection has a
    member under [N ++ "_dedup_all_persistent_ids"], respectively
    [N ++ "_dedup_published_cluster_stats"], [published_cluster_ids] and
    [published_cluster_stats] return a [Dataset] that has the body of that
    member and the path [api_path ++ "/allPublishedClusterIds"],
    respectively [api_path ++ "/publishedClusterStats"], after one fetch
    of the unified dataset and one lookup. *)
Theorem cluster_ids_and_stats_by_derived_name :
  forall (client : Client) (self : Resource) (t : log)
         (ud : Resource) (N : string) (d : Resource),
    unified_dataset_of client t (api_path self) = Ok ud ->
    body_field "name" ud = Some (JStr N) ->
    let t1 := (t ++ [FetchedUnifiedDataset (api_path self)])%list in
    let tried nm :=
      (t ++ [FetchedUnifiedDataset (api_path self); LookedUpByName nm])%list in
    (dataset_named client t1 (N ++ "_dedup_all_persistent_ids") = Some d ->
     published_cluster_ids client self t
     = (Ok (mkResource Dataset (_data d)
              (api_path self ++ "/allPublishedClusterIds")),
        tried (N ++ "_dedup_all_persistent_ids")))
    /\ (dataset_named client t1 (N ++ "_dedup_published_cluster_stats")
        = Some d ->
        published_cluster_stats client self t
        = (Ok (mkResource Dataset (_data d)
                 (api_path self ++ "/publishedClusterStats")),
           tried (N ++ "_dedup_published_cluster_stats"))).
Proof.
  intros client self t ud N d Hfetch Hname t1 tried.
  split; intros Hfound.
  - exact (derived_present client self t Hfetch Hname PublishedClusterIds
             Hfound).
  - exact (derived_present client self t Hfetch Hname PublishedClusterStats
             Hfound).
Qed.

Lemma cluster_ids_and_stats_by_derived_name_witness :
  published_cluster_ids Mishaps.client (Mishaps.project "1") []
  = (Ok (mkResource Dataset
           (Some (JObj [("name",
                         JStr "project 1 unified dataset_dedup_all_persistent_ids");
                        ("relativeId", JStr "datasets/13")]))
           "projects/1/allPublishedClusterIds"),
     [FetchedUnifiedDataset "projects/1";
      LookedUpByName "project 1 unified dataset_dedup_all_persistent_ids"])
  /\ published_cluster_stats Mishaps.client (Mishaps.project "1") []
     = (Ok (mkResource Dataset
              (Some (JObj [("name",
                            JStr "project 1 unified dataset_dedup_published_cluster_stats");
                           ("relativeId", JStr "datasets/14")]))
              "projects/1/publishedClusterStats"),
        [FetchedUnifiedDataset "projects/1";
         LookedUpByName
           "project 1 unified dataset_dedup_published_cluster_stats"]).
Proof.
  pose (at_dataset := fun d =>
    @cluster_ids_and_stats_by_derived_name
      Mishaps.client (Mishaps.project "1") [] Fixture.unified
      "project 1 unified dataset" d eq_refl eq_refl).
  exact (conj
    (proj1 (at_dataset (Fixture.dataset "13"
       "project 1 unified dataset_dedup_all_persistent_ids")) eq_refl)
    (proj2 (at_dataset (Fixture.dataset "14"
       "project 1 unified dataset_dedup_published_cluster_stats")) eq_refl)).
Defined.

(** X9. When the fetch of the unified dataset raises [e], each of the
    five derived-name methods raises [e] unchanged and performs no lookup
    in the dataset collection: the fetch is the only operation logged. *)
Theorem failed_fetch_stops_derived_name_methods :
  forall (client : Client) (self : Resource) (t : log) (e : exn),
    unified_dataset_of client t (api_path self) = Raise e ->
    let fetched := (t ++ [FetchedUnifiedDataset (api_path self)])%list in
    published_clusters client self t = (Raise e, fetched)
    /\ published_cluster_ids client self t = (Raise e, fetched)
    /\ published_cluster_stats client self t = (Raise e, fetched)
    /\ record_clusters_with_data client self t = (Raise e, fetched)
    /\ published_clusters_with_data client self t = (Raise e, fetched).
Proof.
  intros client self t e Hfetch fetched.
  pose proof (fun op => @derived_fetch_failed client self t op e Hfetch)
    as Hall.
  exact (conj (Hall PublishedClusters)
          (conj (Hall PublishedClusterIds)
            (conj (Hall PublishedClusterStats)
              (conj (Hall RecordClustersWithData)
                    (Hall PublishedClustersWithData))))).
Qed.

Lemma failed_fetch_stops_derived_name_methods_witness :
  published_clusters Mishaps.client (Mishaps.project "7") []
  = (Raise AuthError, [FetchedUnifiedDataset "projects/7"]).
Proof.
  exact (proj1 (@failed_fetch_stops_derived_name_methods
                  Mishaps.client (Mishaps.project "7") [] AuthError
                  eq_refl)).
Defined.

(** X10. When the fetched unified dataset carries a [name] that is not a
    string (a null, a number, ...), the concatenation with the suffix
    raises [TypeError] in each of the five derived-name methods, before
    any lookup in the dataset collection. *)
Theorem non_string_name_is_a_type_error :
  forall (client : Client) (self : Resource) (t : log)
         (ud : Resource) (v : json),
    unified_dataset_of client t (api_path self) = Ok ud ->
    body_field "name" ud = Some v ->
    (forall s : string, v <> JStr s) ->
    let fetched := (t ++ [FetchedUnifiedDataset (api_path self)])%list in
    published_clusters client self t = (Raise TypeError, fetched)
    /\ published_cluster_ids client self t = (Raise TypeError, fetched)
    /\ published_cluster_stats client self t = (Raise TypeError, fetched)
    /\ record_clusters_with_data client self t = (Raise TypeError, fetched)
    /\ published_clusters_with_data client self t
       = (Raise TypeError, fetched).
Proof.
  intros client self t ud v Hfetch Hname Hnot fetched.
  pose proof (fun op => @derived_name_not_str client self t op ud v
                          Hfetch Hname Hnot) as Hall.
  exact (conj (Hall PublishedClusters)
          (conj (Hall PublishedClusterIds)
            (conj (Hall PublishedClusterStats)
              (conj (Hall RecordClustersWithData)
                    (Hall PublishedClustersWithData))))).
Qed.

Lemma non_string_name_is_a_type_error_witness :
  published_clusters_with_data Mishaps.client (Mishaps.project "2") []
  = (Raise TypeError, [FetchedUnifiedDataset "projects/2"]).
Proof.
  refine (proj2 (proj2 (proj2 (proj2
            (@non_string_name_is_a_type_error
               Mishaps.client (Mishaps.project "2") [] Mishaps.nameless
               JNull eq_refl eq_refl _))))).
  intros s H. discriminate H.
Defined.

(** *** Methods that read or create one document *)

Section Exchange.

Variable client : Client.
Variable json_loads : string -> option json.

Lemma exchange_inv (A : Type) (r : request) (k : json -> M A)
    (t t' : log) (a : A) :
  exchange client json_loads r k t = (Ok a, t') ->
  exists resp data,
    transport client t r = Ok resp
    /\ (200 <= status_code resp < 300)%Z
    /\ json_loads (text resp) = Some data
    /\ k data (t ++ [Sent r])%list = (Ok a, t').
Proof.
  unfold exchange, bind at 1.
  destruct (transport client t r) as [resp|e]; [|discriminate].
  unfold bind at 1, successful.
  destruct ((200 <=? status_code resp)%Z && (status_code resp <? 300)%Z)
    eqn:Hstatus.
  - unfold ret at 1, bind at 1,
      AttributeConfigurationCollection.response_json.
    destruct (json_loads (text resp)) as [data|] eqn:Hbody;
      [|discriminate].
    unfold ret at 1. intros Hk.
    exists resp, data. apply andb_true_iff in Hstatus.
    destruct Hstatus as [Hlo Hhi].
    apply Z.leb_le in Hlo. apply Z.ltb_lt in Hhi.
    repeat split; auto.
  - destruct (status_code resp =? 404)%Z; [discriminate|].
    destruct ((status_code resp =? 401)%Z || (status_code resp =? 403)%Z);
      discriminate.
Qed.

Lemma exchange_ok (A : Type) (r : request) (k : json -> M A)
    (t : log) (resp : response) (data : json) :
  transport client t r = Ok resp ->
  (200 <= status_code resp < 300)%Z ->
  json_loads (text resp) = Some data ->
  exchange client json_loads r k t = k data (t ++ [Sent r])%list.
Proof.
  intros Hsent Hstatus Hbody.
  unfold exchange, bind at 1. rewrite Hsent.
  unfold bind at 1, successful.
  replace ((200 <=? status_code resp)%Z && (status_code resp <? 300)%Z)
    with true
    by (symmetry; apply andb_true_iff; split;
        [apply Z.leb_le | apply Z.ltb_lt]; lia).
  unfold ret at 1, bind at 1, AttributeConfigurationCollection.response_json.
  now rewrite Hbody.
Qed.

(** When [k] logs nothing, the request is all that is logged. *)
Lemma exchange_log (A : Type) (r : request) (k : json -> M A) (t : log) :
  (forall data u, snd (k data u) = u) ->
  snd (exchange client json_loads r k t) = (t ++ [Sent r])%list.
Proof.
  intros Hk. unfold exchange, bind at 1.
  destruct (transport client t r) as [resp|e]; [|reflexivity].
  unfold bind at 1, successful.
  destruct ((200 <=? status_code resp)%Z && (status_code resp <? 300)%Z);
    [|destruct (status_code resp =? 404)%Z;
       [|destruct ((status_code resp =? 401)%Z || (status_code resp =? 403)%Z)];
       reflexivity].
  unfold ret at 1, bind at 1, AttributeConfigurationCollection.response_json.
  destruct (json_loads (text resp)) as [data|]; [|reflexivity].
  unfold ret at 1. apply Hk.
Qed.

Lemma published_clusters_configuration_exchange (self : Resource) :
  published_clusters_configuration client json_loads self
  = exchange client json_loads
      (mkRequest GET (api_path self ++ "/publishedClustersConfiguration")
         NoPayload false)
      (fun data =>
         from_json PublishedClustersConfiguration (Some data)
           (Some (api_path self ++ "/publishedClustersConfiguration"))).
Proof. reflexivity. Qed.

Lemma estimate_pairs_exchange (self : Resource) :
  estimate_pairs client json_loads self
  = exchange client json_loads
      (mkRequest GET (api_path self ++ "/estimatedPairCounts")
         NoPayload false)
      (fun data =>
         bind (from_json EstimatedPairCounts (Some data)
                 (Some (api_path self ++ "/estimatedPairCounts")))
              (fun info => ret info)).
Proof. reflexivity. Qed.

Lemma create_exchange (self : AttributeConfigurationCollection.Collection)
    (creation_spec : json) :
  AttributeConfigurationCollection.create client json_loads self creation_spec
  = exchange client json_loads
      (mkRequest POST (AttributeConfigurationCollection.collection_path self)
         (JsonPayload creation_spec) false)
      (fun data => from_json AttributeConfiguration (Some data) None).
Proof. reflexivity. Qed.

End Exchange.

(** X11. When the GET of [published_clusters_configuration], respectively
    [estimate_pairs], is answered with a 2xx status and a text that
    decodes to [data], the method returns a
    [PublishedClustersConfiguration], respectively [EstimatedPairCounts],
    whose body is [data] and whose path is the alias
    [api_path ++ "/publishedClustersConfiguration"], respectively
    [api_path ++ "/estimatedPairCounts"], whatever [data] holds; the GET
    of that alias is the only operation logged. *)
Theorem documents_are_wrapped_at_their_alias :
  forall (client : Client) (json_loads : string -> option json)
         (self : Resource) (t : log) (resp : response) (data : json),
    (200 <= status_code resp < 300)%Z ->
    json_loads (text resp) = Some data ->
    let get suffix :=
      mkRequest GET (api_path self ++ suffix) NoPayload false in
    (transport client t (get "/publishedClustersConfiguration") = Ok resp ->
     published_clusters_configuration client json_loads self t
     = (Ok (mkResource PublishedClustersConfiguration (Some data)
              (api_path self ++ "/publishedClustersConfiguration")),
        (t ++ [Sent (get "/publishedClustersConfiguration")])%list))
    /\ (transport client t (get "/estimatedPairCounts") = Ok resp ->
        estimate_pairs client json_loads self t
        = (Ok (mkResource EstimatedPairCounts (Some data)
                 (api_path self ++ "/estimatedPairCounts")),
           (t ++ [Sent (get "/estimatedPairCounts")])%list)).
Proof.
  intros client json_loads self t resp data Hstatus Hbody get.
  split; intros Hsent.
  - rewrite published_clusters_configuration_exchange.
    rewrite (@exchange_ok client json_loads _ _ _ t resp data
               Hsent Hstatus Hbody).
    reflexivity.
  - rewrite estimate_pairs_exchange.
    rewrite (@exchange_ok client json_loads _ _ _ t resp data
               Hsent Hstatus Hbody).
    reflexivity.
Qed.

Lemma documents_are_wrapped_at_their_alias_witness :
  published_clusters_configuration Mishaps.client Mishaps.loads
    (Mishaps.project "1") []
  = (Ok (mkResource PublishedClustersConfiguration
           (Some Mishaps.configuration)
           "projects/1/publishedClustersConfiguration"),
     [Sent (mkRequest GET "projects/1/publishedClustersConfiguration"
              NoPayload false)])
  /\ estimate_pairs Mishaps.client Mishaps.loads (Mishaps.project "1") []
     = (Ok (mkResource EstimatedPairCounts (Some Mishaps.estimate)
              "projects/1/estimatedPairCounts"),
        [Sent (mkRequest GET "projects/1/estimatedPairCounts"
                 NoPayload false)]).
Proof.
  assert (Hstatus : (200 <= 200 < 300)%Z) by lia.
  exact (conj
    (proj1 (@documents_are_wrapped_at_their_alias
              Mishaps.client Mishaps.loads (Mishaps.project "1") []
              (mkResponse 200 "configuration" [] None)
              Mishaps.configuration Hstatus eq_refl) eq_refl)
    (proj2 (@documents_are_wrapped_at_their_alias
              Mishaps.client Mishaps.loads (Mishaps.project "1") []
              (mkResponse 200 "estimate" [] None)
              Mishaps.estimate Hstatus eq_refl) eq_refl)).
Defined.

(** X12. [published_clusters_configuration], [estimate_pairs] and
    [create] each perform exactly one operation on the client, whatever
    comes back (a failure of the exchange, any status, any text): the GET
    of the alias for the first two, the POST of the specification to the
    path of the collection for the third.  There is no retry and no
    follow-up request. *)
Theorem document_methods_send_one_request :
  forall (client : Client) (json_loads : string -> option json)
         (self : Resource)
         (collection : AttributeConfigurationCollection.Collection)
         (creation_spec : json) (t : log),
    snd (published_clusters_configuration client json_loads self t)
    = (t ++ [Sent (mkRequest GET
                     (api_path self ++ "/publishedClustersConfiguration")
                     NoPayload false)])%list
    /\ snd (estimate_pairs client json_loads self t)
       = (t ++ [Sent (mkRequest GET
                        (api_path self ++ "/estimatedPairCounts")
                        NoPayload false)])%list
    /\ snd (AttributeConfigurationCollection.create client json_loads
              collection creation_spec t)
       = (t ++ [Sent (mkRequest POST
                        (AttributeConfigurationCollection.collection_path
                           collection)
                        (JsonPayload creation_spec) false)])%list.
Proof.
  intros client json_loads self collection creation_spec t.
  rewrite published_clusters_configuration_exchange,
    estimate_pairs_exchange, create_exchange.
  repeat split; apply exchange_log; intros data u.
  - reflexivity.
  - reflexivity.
  - unfold from_json, lift. reflexivity.
Qed.

(** X13. [published_clusters_configuration], [estimate_pairs] and
    [create] return a resource only from an answer that was obtained, has
    a 2xx status and a text that decodes, and the body of the resource is
    the decoded value: a failed exchange, a status outside 2xx or an
    undecodable text always ends in an exception. *)
Theorem document_methods_return_only_accepted_answers :
  forall (client : Client) (json_loads : string -> option json)
         (self : Resource)
         (collection : AttributeConfigurationCollection.Collection)
         (creation_spec : json) (t t' : log) (r : Resource),
    let accepted (sent : request) (c : resource_class) :=
      exists resp data,
        transport client t sent = Ok resp
        /\ (200 <= status_code resp < 300)%Z
        /\ json_loads (text resp) = Some data
        /\ cls r = c /\ _data r = Some data in
    (published_clusters_configuration client json_loads self t = (Ok r, t') ->
     accepted
       (mkRequest GET (api_path self ++ "/publishedClustersConfiguration")
          NoPayload false)
       PublishedClustersConfiguration)
    /\ (estimate_pairs client json_loads self t = (Ok r, t') ->
        accepted
          (mkRequest GET (api_path self ++ "/estimatedPairCounts")
             NoPayload false)
          EstimatedPairCounts)
    /\ (AttributeConfigurationCollection.create client json_loads
          collection creation_spec t = (Ok r, t') ->
        accepted
          (mkRequest POST
             (AttributeConfigurationCollection.collection_path collection)
             (JsonPayload creation_spec) false)
          AttributeConfiguration).
Proof.
  intros client json_loads self collection creation_spec t t' r accepted.
  repeat split; intros Hrun.
  - rewrite published_clusters_configuration_exchange in Hrun.
    apply exchange_inv in Hrun.
    destruct Hrun as (resp & data & Hsent & Hstatus & Hbody & Hk).
    exists resp, data. injection Hk as <- _. repeat split; auto; apply Hstatus.
  - rewrite estimate_pairs_exchange in Hrun.
    apply exchange_inv in Hrun.
    destruct Hrun as (resp & data & Hsent & Hstatus & Hbody & Hk).
    exists resp, data. injection Hk as <- _. repeat split; auto; apply Hstatus.
  - rewrite create_exchange in Hrun.
    apply exchange_inv in Hrun.
    destruct Hrun as (resp & data & Hsent & Hstatus & Hbody & Hk).
    exists resp, data.
    unfold from_json, lift, construct in Hk.
    destruct data as [| | | | |members]; try discriminate.
    destruct (assoc "relativeId" members) as [[| | |rid| |]|];
      try discriminate.
    injection Hk as <- _. repeat split; auto; apply Hstatus.
Qed.

Lemma document_methods_return_only_accepted_answers_witness :
  (exists resp data,
      transport Mishaps.client []
        (mkRequest GET "projects/1/publishedClustersConfiguration"
           NoPayload false) = Ok resp
      /\ (200 <= status_code resp < 300)%Z
      /\ Mishaps.loads (text resp) = Some data
      /\ PublishedClustersConfiguration = PublishedClustersConfiguration
      /\ Some Mishaps.configuration = Some data)
  /\ (exists resp data,
        transport Mishaps.client []
          (mkRequest GET "projects/1/estimatedPairCounts" NoPayload false)
        = Ok resp
        /\ (200 <= status_code resp < 300)%Z
        /\ Mishaps.loads (text resp) = Some data
        /\ EstimatedPairCounts = EstimatedPairCounts
        /\ Some Mishaps.estimate = Some data)
  /\ (exists resp data,
        transport Fixture.client []
          (mkRequest POST "projects/1/attributeConfigurations"
             (JsonPayload JNull) false) = Ok resp
        /\ (200 <= status_code resp < 300)%Z
        /\ Fixture.loads (text resp) = Some data
        /\ AttributeConfiguration = AttributeConfiguration
        /\ Some Fixture.created = Some data).
Proof.
  exact (conj
    (proj1 (@document_methods_return_only_accepted_answers
              Mishaps.client Mishaps.loads (Mishaps.project "1")
              Fixture.collection JNull []
              [Sent (mkRequest GET "projects/1/publishedClustersConfiguration"
                       NoPayload false)]
              (mkResource PublishedClustersConfiguration
                 (Some Mishaps.configuration)
                 "projects/1/publishedClustersConfiguration"))
       eq_refl)
    (conj
      (proj1 (proj2 (@document_methods_return_only_accepted_answers
                Mishaps.client Mishaps.loads (Mishaps.project "1")
                Fixture.collection JNull []
                [Sent (mkRequest GET "projects/1/estimatedPairCounts"
                         NoPayload false)]
                (mkResource EstimatedPairCounts (Some Mishaps.estimate)
                   "projects/1/estimatedPairCounts")))
         eq_refl)
      (proj2 (proj2 (@document_methods_return_only_accepted_answers
                Fixture.client Fixture.loads Fixture.project
                Fixture.collection JNull []
                [Sent (mkRequest POST "projects/1/attributeConfigurations"
                         (JsonPayload JNull) false)]
                (mkResource AttributeConfiguration (Some Fixture.created)
                   "projects/1/attributeConfigurations/35")))
         eq_refl))).
Defined.
